(** * junos_upgrade.py: the upgrade orchestrator, embedded and verified

    The script drives one Junos device through an OS upgrade: it connects,
    reads the running version, stages the image, installs it, reboots,
    waits for the device to return and checks the version again.

    The device library (Device, SW, FS), the clock, the local file system,
    the process environment and the password prompt are outside the script.
    They are represented by a record [Env] of scripted replies, and every
    call the script makes to them is recorded in a trace.  Python exceptions
    are values of an error monad that keeps the state, so that [except] and
    [finally] clauses run against the state left by the failing statement.

    What is assumed of the outside world:
    - time is an integer number of time-units; [time.sleep(n)] advances the
      clock by exactly [n], [dev.open()] by a cost the environment chooses,
      and the other calls by nothing;
    - [dev.close()] does not raise, and the [connected] flag of a [Device]
      is set by a successful [open] and cleared by [close], by nothing else;
    - the library calls raise subclasses of [Exception] only; signals such
      as [KeyboardInterrupt] are left out;
    - [os.path.getsize] and the logging calls have no effect on the run. *)

From Stdlib Require Import ZArith NArith List String Ascii Bool Lia.
From Equations Require Import Equations.
Import ListNotations.

Open Scope string_scope.
Open Scope Z_scope.

(** ** Python values and exceptions *)

(** The values the script stores in dictionaries: [None] or a string. *)
Inductive pyval :=
| PyNone
| PyStr (s : string).

(** Truthiness of an optional string, as used by [or] and [not]:
    [None] and the empty string are false. *)
Definition truthy (v : option string) : bool :=
  match v with
  | Some s => negb (s =? "")%string
  | None => false
  end.

(** [a or b] on optional strings. *)
Definition py_or (a b : option string) : option string :=
  if truthy a then a else b.

(** Subclasses of [Exception] that the script distinguishes.  [RpcError]
    and [ConnectError] stand for the class and its subclasses;
    [AttributeError] is what a method call on [None] raises. *)
Inductive exception :=
| ConnectError
| RpcError
| AttributeError
| OtherException.

(** What can unwind the stack: an [Exception], or [SystemExit] raised by
    [sys.exit], which [except Exception] does not catch. *)
Inductive raised :=
| Exc (e : exception)
| SystemExit (code : Z).

(** ** Replies of the outside world *)

(** A [Device] object is identified by the order of its construction. *)
Definition handle := nat.

Inductive conn_reply :=
| ConnOk
| ConnRaises (e : exception).

(** [dev.facts]: the lookup may raise; otherwise the dictionary holds a
    value under 'version' or has no such key. *)
Inductive facts_reply :=
| FactsRaises (e : exception)
| FactsDict (version : option pyval).

(** [fs.ls(path)]: raises, or returns a dictionary that may hold a 'files'
    collection; an entry of the collection may hold a 'name'. *)
Inductive ls_reply :=
| LsRaises (e : exception)
| LsDict (files : option (list (option string))).

Inductive copy_reply :=
| CopyRaises (e : exception)
| CopyReturns (result : bool).

Inductive install_reply :=
| InstallRaises (e : exception)
| InstallReturns (ok : bool) (msg : string).

Inductive reboot_reply :=
| RebootRaises (e : exception)
| RebootReturns.

Record Env := mkEnv {
  environ : string -> option string;      (* os.getenv *)
  getpass_reply : string;                 (* what the operator types *)
  connect_reply : handle -> conn_reply;   (* Device.open of the n-th Device *)
  connect_cost : handle -> N;             (* clock time that open() takes *)
  facts_of : handle -> facts_reply;
  ls_of : handle -> string -> ls_reply;
  path_exists : string -> bool;           (* os.path.exists *)
  copy_of : handle -> copy_reply;
  install_of : handle -> install_reply;
  reboot_of : handle -> reboot_reply
}.

(** ** Events and state *)

Inductive event :=
| EvGetpass
| EvOpen (h : handle) (ok : bool)
| EvClose (h : handle)
| EvFacts (h : handle)
| EvLs (h : handle) (path : string)
| EvExists (path : string) (found : bool)
| EvCopy (h : handle) (package remote_path : string)
| EvInstall (h : handle) (package remote_path : string) (r : install_reply)
| EvReboot (h : handle)
| EvSleep (secs : Z).

(** The state: the clock read by [time.time], the [Device] objects built
    so far with their [connected] flag (a handle is an index in this list),
    the trace with the latest event first, and the local variable [dev] of
    [main], which its [finally] clause reads. *)
Record State := mkState {
  clock : Z;
  devices : list bool;
  trace : list event;
  dev : option handle
}.

Definition init_state (t0 : Z) : State :=
  {| clock := t0; devices := []; trace := []; dev := None |}.

Definition emit (ev : event) (s : State) : State :=
  {| clock := clock s; devices := devices s; trace := ev :: trace s; dev := dev s |}.

Definition tick (d : Z) (s : State) : State :=
  {| clock := clock s + d; devices := devices s; trace := trace s; dev := dev s |}.

Fixpoint set_nth (i : nat) (b : bool) (l : list bool) : list bool :=
  match l, i with
  | [], _ => []
  | _ :: l', O => b :: l'
  | x :: l', S i' => x :: set_nth i' b l'
  end.

Definition set_connected (h : handle) (b : bool) (s : State) : State :=
  {| clock := clock s; devices := set_nth h b (devices s);
     trace := trace s; dev := dev s |}.

(** ** The monad: state that survives exceptions *)

Inductive res (A : Type) :=
| Val (a : A)
| Raise (r : raised).
Arguments Val {A} a.
Arguments Raise {A} r.

Definition M (A : Type) := State -> res A * State.

Definition ret {A} (a : A) : M A := fun s => (Val a, s).

Definition bind {A B} (m : M A) (k : A -> M B) : M B :=
  fun s =>
    match m s with
    | (Val a, s') => k a s'
    | (Raise r, s') => (Raise r, s')
    end.

Definition raise {A} (r : raised) : M A := fun s => (Raise r, s).

Declare Scope monad_scope.
Delimit Scope monad_scope with monad.
Notation "x <- c ;; k" := (bind c (fun x => k))
  (at level 100, c at next level, right associativity) : monad_scope.
Notation "c ;;; k" := (bind c (fun _ => k))
  (at level 100, right associativity) : monad_scope.
Open Scope monad_scope.

(** [try: body / except ...]: [handler r] is the clause that matches [r],
    or [None] when no clause does and the exception goes on. *)
Definition try_except {A} (body : M A) (handler : raised -> option (M A)) : M A :=
  fun s =>
    match body s with
    | (Val a, s') => (Val a, s')
    | (Raise r, s') =>
        match handler r with
        | Some h => h s'
        | None => (Raise r, s')
        end
    end.

(** [try: body / finally: fin]: [fin] runs on every exit of [body]; the
    completion of [body] stands unless [fin] itself raises. *)
Definition try_finally {A} (body : M A) (fin : M unit) : M A :=
  fun s =>
    let '(r, s') := body s in
    match fin s' with
    | (Val _, s'') => (r, s'')
    | (Raise r', s'') => (Raise r', s'')
    end.

(** The clause [except Exception]. *)
Definition except_Exception {A} (h : exception -> M A) (r : raised) : option (M A) :=
  match r with
  | Exc e => Some (h e)
  | SystemExit _ => None
  end.

Definition get_dev : M (option handle) := fun s => (Val (dev s), s).

Definition set_dev (d : option handle) : M unit :=
  fun s => (Val tt, {| clock := clock s; devices := devices s;
                       trace := trace s; dev := d |}).

(** ** Paths and strings *)

Fixpoint ends_with_slash (p : string) : bool :=
  match p with
  | EmptyString => false
  | String c EmptyString => Ascii.eqb c "/"
  | String _ p' => ends_with_slash p'
  end.

(** [os.path.join(a, p)] on POSIX, for two components. *)
Definition path_join (a p : string) : string :=
  if prefix "/" p then p
  else if (a =? "")%string || ends_with_slash a then a ++ p
  else a ++ "/" ++ p.

Fixpoint basename_from (acc p : string) : string :=
  match p with
  | EmptyString => acc
  | String c p' =>
      if Ascii.eqb c "/" then basename_from "" p'
      else basename_from (acc ++ String c "") p'
  end.

(** [os.path.basename(p)]: what follows the last slash. *)
Definition basename (p : string) : string := basename_from "" p.

(** [v.startswith(p)]: on [None] the attribute lookup raises. *)
Definition py_startswith (v : pyval) (p : string) : M bool :=
  match v with
  | PyNone => raise (Exc AttributeError)
  | PyStr s => ret (prefix p s)
  end.

(** ** Configuration *)

(** The parsed command line: every option is [None] unless given;
    [--timeout] has type int and default 720. *)
Record Args := mkArgs {
  arg_host : option string;
  arg_user : option string;
  arg_password : option string;
  arg_image : option string;
  arg_local_path : option string;
  arg_remote_path : option string;
  arg_expected_version : option string;
  arg_timeout : Z;
  arg_verbose : bool
}.

(** The dictionary [config] as first built (lines 78-87). *)
Record RawConfig := mkRaw {
  raw_host : option string;
  raw_user : option string;
  raw_password : option string;
  raw_image_name : option string;
  raw_local_image_dir : option string;
  raw_remote_path : option string;
  raw_expected_version : option string;
  raw_timeout : Z
}.

(** The dictionary as [load_config] returns it. *)
Record Config := mkConfig {
  host : string;
  user : string;
  password : string;
  image_name : string;
  local_image_dir : string;
  remote_path : string;
  expected_version : string;
  timeout : Z;
  local_image_fullpath : string;
  remote_image_fullpath : string
}.

Definition is_None {A} (v : option A) : bool :=
  match v with
  | None => true
  | Some _ => false
  end.

(** [config.items()] as (key, [v is None]), in the order of the literal. *)
Definition items (c : RawConfig) : list (string * bool) :=
  [ ("host", is_None (raw_host c));
    ("user", is_None (raw_user c));
    ("password", is_None (raw_password c));
    ("image_name", is_None (raw_image_name c));
    ("local_image_dir", is_None (raw_local_image_dir c));
    ("remote_path", is_None (raw_remote_path c));
    ("expected_version", is_None (raw_expected_version c));
    ("timeout", false) ].

(** [[k for k, v in config.items() if v is None and k not in ['password']]] *)
Definition missing (c : RawConfig) : list string :=
  map fst
    (filter (fun kv => snd kv && negb (existsb (String.eqb (fst kv)) ["password"]))
       (items c)).

(** The string held by a value known not to be [None]. *)
Definition str_of (v : option string) : string :=
  match v with
  | Some s => s
  | None => ""
  end.

(** The terminal outcomes of a run, one per [return] of [main]. *)
Inductive UpgradeOutcome :=
| AlreadyUpToDate
| Success
| ImageCopyFailed
| InstallFailed
| RebootTimedOut
| VersionMismatch
| ConnectionFailed
| UpgradeProcessFailed.

Section Script.

Variable env : Env.

(** ** The calls the script makes to the outside world *)

(** [Device(host=..., user=..., password=...)]: a new object, not connected. *)
Definition new_Device : M handle :=
  fun s => (Val (List.length (devices s)),
            {| clock := clock s; devices := (devices s ++ [false])%list;
               trace := trace s; dev := dev s |}).

(** [dev.open()]: takes [connect_cost] on the clock, then either marks the
    object connected or raises. *)
Definition dev_open (h : handle) : M unit :=
  fun s =>
    let s1 := tick (Z.of_N (connect_cost env h)) s in
    match connect_reply env h with
    | ConnOk => (Val tt, set_connected h true (emit (EvOpen h true) s1))
    | ConnRaises e => (Raise (Exc e), emit (EvOpen h false) s1)
    end.

(** [dev.connected] *)
Definition dev_connected (h : handle) : M bool :=
  fun s => (Val (nth h (devices s) false), s).

(** [dev.close()] *)
Definition dev_close (h : handle) : M unit :=
  fun s => (Val tt, set_connected h false (emit (EvClose h) s)).

(** [dev.facts.get(key, default)] for the key 'version'. *)
Definition dev_facts_get_version (h : handle) (default : pyval) : M pyval :=
  fun s =>
    let s1 := emit (EvFacts h) s in
    match facts_of env h with
    | FactsRaises e => (Raise (Exc e), s1)
    | FactsDict (Some v) => (Val v, s1)
    | FactsDict None => (Val default, s1)
    end.

(** [FS(dev).ls(path)] *)
Definition fs_ls (h : handle) (path : string) : M (option (list (option string))) :=
  fun s =>
    let s1 := emit (EvLs h path) s in
    match ls_of env h path with
    | LsRaises e => (Raise (Exc e), s1)
    | LsDict files => (Val files, s1)
    end.

(** [os.path.exists(path)] *)
Definition os_path_exists (path : string) : M bool :=
  fun s => (Val (path_exists env path), emit (EvExists path (path_exists env path)) s).

(** [SW(dev).safe_copy(package=..., remote_path=..., progress=True)] *)
Definition sw_safe_copy (h : handle) (package remote_path : string) : M bool :=
  fun s =>
    let s1 := emit (EvCopy h package remote_path) s in
    match copy_of env h with
    | CopyRaises e => (Raise (Exc e), s1)
    | CopyReturns b => (Val b, s1)
    end.

(** [SW(dev).install(package=..., no_copy=True, ...)] *)
Definition sw_install (h : handle) (package remote_path : string) : M (bool * string) :=
  fun s =>
    let s1 := emit (EvInstall h package remote_path (install_of env h)) s in
    match install_of env h with
    | InstallRaises e => (Raise (Exc e), s1)
    | InstallReturns ok msg => (Val (ok, msg), s1)
    end.

(** [sw.reboot()] *)
Definition sw_reboot (h : handle) : M unit :=
  fun s =>
    let s1 := emit (EvReboot h) s in
    match reboot_of env h with
    | RebootRaises e => (Raise (Exc e), s1)
    | RebootReturns => (Val tt, s1)
    end.

(** [time.time()] and [time.sleep(secs)] *)
Definition time_time : M Z := fun s => (Val (clock s), s).

Definition time_sleep (secs : Z) : M unit :=
  fun s => (Val tt, tick secs (emit (EvSleep secs) s)).

(** [getpass("Enter device password: ")] *)
Definition getpass : M string :=
  fun s => (Val (getpass_reply env), emit EvGetpass s).

(** [sys.exit(code)] *)
Definition sys_exit {A} (code : Z) : M A := raise (SystemExit code).

(** ** connect_device (lines 107-120) *)

Definition connect_device (host user password : string) : M (option handle) :=
  try_except
    (d <- new_Device ;;
     dev_open d ;;;
     ret (Some d))
    (fun r =>
       match r with
       | Exc ConnectError => Some (ret None)
       | Exc _ => Some (ret None)
       | SystemExit _ => None
       end).

(** ** probe_device (lines 122-140) *)

(** One pass through the [try] statement of the loop body: [Some d] is
    [return dev]; [None] is falling out of an [except] clause. *)
Definition probe_attempt (host user password : string) : M (option handle) :=
  try_except
    (d <- new_Device ;;
     dev_open d ;;;
     ret (Some d))
    (fun r =>
       match r with
       | Exc ConnectError => Some (ret None)   (* logger.debug *)
       | Exc _ => Some (ret None)              (* logger.warning *)
       | SystemExit _ => None
       end).

Lemma probe_attempt_clock host user password s r s' :
  probe_attempt host user password s = (r, s') -> clock s <= clock s'.
Proof.
  unfold probe_attempt, try_except, bind, new_Device, dev_open, ret.
  cbn. destruct (connect_reply env _) as [|e]; cbn.
  - intros [= _ <-]. cbn. lia.
  - destruct e; cbn; intros [= _ <-]; cbn; lia.
Qed.

Definition inspect {A} (a : A) : {b | a = b} := exist _ a eq_refl.

(** The [while time.time() < deadline] loop.  Every pass sleeps 10, so the
    distance to the deadline is a measure. *)
Equations? probe_loop (host user password : string) (deadline : Z) (s : State)
  : res (option handle) * State
  by wf (Z.to_nat (deadline - clock s)) lt :=
  probe_loop host user password deadline s with inspect (clock s <? deadline) := {
    | exist _ false Hge => (Val None, s);
    | exist _ true Hlt with inspect (probe_attempt host user password s) := {
        | exist _ (Val (Some d), s1) Hb => (Val (Some d), s1);
        | exist _ (Raise r, s1) Hb => (Raise r, s1);
        | exist _ (Val None, s1) Hb =>
            probe_loop host user password deadline (snd (time_sleep 10 s1)) } }.
Proof.
  apply probe_attempt_clock in Hb. apply Z.ltb_lt in Hlt. cbn. lia.
Qed.

Definition probe_device (host user password : string) (timeout : Z)
  : M (option handle) :=
  now <- time_time ;;
  let deadline := now + timeout in
  probe_loop host user password deadline.

(** ** load_config (lines 54-105) *)

Definition getenv (name : string) : option string := environ env name.

Definition getenv_default (name default : string) : option string :=
  match environ env name with
  | Some v => Some v
  | None => Some default
  end.

Definition raw_config (args : Args) : RawConfig :=
  {| raw_host := py_or (arg_host args) (getenv "JUNOS_HOST");
     raw_user := py_or (arg_user args) (getenv "JUNOS_USER");
     raw_password := py_or (arg_password args) (getenv "JUNOS_PASSWORD");
     raw_image_name := py_or (arg_image args) (getenv "JUNOS_IMAGE");
     raw_local_image_dir := py_or (arg_local_path args) (getenv "JUNOS_IMAGE_PATH");
     raw_remote_path :=
       py_or (arg_remote_path args) (getenv_default "REMOTE_PATH" "/var/tmp/usb");
     raw_expected_version :=
       py_or (arg_expected_version args) (getenv_default "EXPECTED_VERSION" "24.2R2.18");
     raw_timeout := arg_timeout args |}.

Definition load_config (args : Args) : M Config :=
  let config := raw_config args in
  match missing config with
  | _ :: _ => sys_exit 1
  | [] =>
      pw <- (if negb (truthy (raw_password config)) then getpass
             else ret (str_of (raw_password config))) ;;
      ret {| host := str_of (raw_host config);
             user := str_of (raw_user config);
             password := pw;
             image_name := str_of (raw_image_name config);
             local_image_dir := str_of (raw_local_image_dir config);
             remote_path := str_of (raw_remote_path config);
             expected_version := str_of (raw_expected_version config);
             timeout := raw_timeout config;
             local_image_fullpath :=
               path_join (str_of (raw_local_image_dir config))
                         (str_of (raw_image_name config));
             remote_image_fullpath :=
               path_join (str_of (raw_remote_path config))
                         (str_of (raw_image_name config)) |}
  end.

(** ** check_image_on_device (lines 142-163) *)

Definition entry_is (image : string) (file_entry : option string) : bool :=
  match file_entry with
  | Some n => (n =? image)%string
  | None => false
  end.

Definition check_image_on_device (d : handle) (remote image : string) : M bool :=
  try_except
    (ls_result <- fs_ls d remote ;;
     match ls_result with
     | None => ret false
     | Some files => ret (existsb (entry_is image) files)
     end)
    (fun r =>
       match r with
       | Exc RpcError => Some (ret false)
       | _ => None
       end).

(** ** copy_image_to_device (lines 165-194) *)

Definition copy_image_to_device (d : handle) (local_path remote image : string)
  : M bool :=
  let full_local_path := path_join local_path image in
  found <- os_path_exists full_local_path ;;
  if negb found then ret false
  else
    try_except
      (result <- sw_safe_copy d full_local_path remote ;;
       if result then ret true else ret false)
      (except_Exception (fun _ => ret false)).

(** ** install_image (lines 196-226) *)

Definition install_image (d : handle) (remote image : string) : M bool :=
  let image := basename image in
  try_except
    (r <- sw_install d image remote ;;
     let '(ok, msg) := r in
     if ok then
       sw_reboot d ;;;
       ret true
     else ret false)
    (except_Exception (fun _ => ret false)).

(** ** verify_version (lines 228-242) *)

Definition verify_version (d : handle) (expected_prefix : string) : M bool :=
  try_except
    (version <- dev_facts_get_version d (PyStr "") ;;
     b <- py_startswith version expected_prefix ;;
     if b then ret true else ret false)
    (except_Exception (fun _ => ret false)).

(** ** main (lines 244-316) *)

(** Lines 274-305: install, reboot, wait, reconnect, verify. *)
Definition main_install (config : Config) (d : handle) : M (UpgradeOutcome * Z) :=
  installed <- install_image d (remote_path config) (image_name config) ;;
  if installed then
    dev_close d ;;;
    time_sleep 720 ;;;
    d' <- probe_device (host config) (user config) (password config)
            (timeout config) ;;
    set_dev d' ;;;
    match d' with
    | Some d2 =>
        ok <- verify_version d2 (expected_version config) ;;
        if ok then ret (Success, 0) else ret (VersionMismatch, 1)
    | None => ret (RebootTimedOut, 1)
    end
  else ret (InstallFailed, 1).

(** Lines 260-305: the body of the [try] statement; [d] is the value of
    [dev] on entry. *)
Definition main_try (config : Config) (d : handle) : M (UpgradeOutcome * Z) :=
  current_version <- dev_facts_get_version d PyNone ;;
  current <- py_startswith current_version (expected_version config) ;;
  if current then ret (AlreadyUpToDate, 0)
  else
    image_exists <- check_image_on_device d (remote_path config) (image_name config) ;;
    if negb image_exists then
      copied <- copy_image_to_device d (local_image_dir config)
                  (remote_path config) (image_name config) ;;
      if negb copied then ret (ImageCopyFailed, 1)
      else main_install config d
    else main_install config d.

(** Lines 312-316: [if dev and hasattr(dev, 'connected') and dev.connected]. *)
Definition main_finally : M unit :=
  d <- get_dev ;;
  match d with
  | Some h =>
      c <- dev_connected h ;;
      if c then dev_close h else ret tt
  | None => ret tt
  end.

Definition main (args : Args) : M (UpgradeOutcome * Z) :=
  config <- load_config args ;;
  d <- connect_device (host config) (user config) (password config) ;;
  set_dev d ;;;
  match d with
  | None => ret (ConnectionFailed, 1)
  | Some h =>
      try_finally
        (try_except (main_try config h)
           (except_Exception (fun _ => ret (UpgradeProcessFailed, 1))))
        main_finally
  end.

(** Lines 318-326: the exit status of the process.  [sys.exit] raises
    [SystemExit]; an exception nobody catches ends the process with 1. *)
Definition script (args : Args) (s : State) : Z * State :=
  match main args s with
  | (Val (_, exit_code), s') => (exit_code, s')
  | (Raise (SystemExit code), s') => (code, s')
  | (Raise (Exc _), s') => (1, s')
  end.

End Script.

(** * Vocabulary of the statements *)

Section Passes.

Variable env : Env.

(** [Device(...)] adds a fresh, unconnected object. *)
Definition alloc (s : State) : State :=
  {| clock := clock s; devices := (devices s ++ [false])%list;
     trace := trace s; dev := dev s |}.

(** The state in which [dev.open()] leaves the next [Device]. *)
Definition attempted (s : State) : State :=
  tick (Z.of_N (connect_cost env (List.length (devices s)))) (alloc s).

(** One pass of the probing loop whose attempt fails: the attempt, then
    the sleep. *)
Definition failed_pass (s : State) : State :=
  tick 10 (emit (EvSleep 10)
             (emit (EvOpen (List.length (devices s)) false) (attempted s))).

(** The pass whose attempt succeeds. *)
Definition good_pass (s : State) : State :=
  set_connected (List.length (devices s)) true
    (emit (EvOpen (List.length (devices s)) true) (attempted s)).

(** What a run of the loop is: [n] failed passes, each begun before the
    deadline, and then either the deadline has passed or one attempt
    succeeds. *)
Inductive loop_end (deadline : Z) (s : State) : res (option handle) * State -> Prop :=
| loop_timeout n :
    (forall k, (k < n)%nat ->
       clock (Nat.iter k failed_pass s) < deadline /\
       connect_reply env (List.length (devices (Nat.iter k failed_pass s))) <> ConnOk) ->
    deadline <= clock (Nat.iter n failed_pass s) ->
    loop_end deadline s (Val None, Nat.iter n failed_pass s)
| loop_connected n :
    (forall k, (k < n)%nat ->
       clock (Nat.iter k failed_pass s) < deadline /\
       connect_reply env (List.length (devices (Nat.iter k failed_pass s))) <> ConnOk) ->
    clock (Nat.iter n failed_pass s) < deadline ->
    connect_reply env (List.length (devices (Nat.iter n failed_pass s))) = ConnOk ->
    loop_end deadline s
      (Val (Some (List.length (devices (Nat.iter n failed_pass s)))),
       good_pass (Nat.iter n failed_pass s)).

End Passes.

(** The trace of [n] failed passes, latest first; [base] is the handle of
    the first attempt. *)
Fixpoint failed_trace (base n : nat) : list event :=
  match n with
  | O => []
  | S k => EvSleep 10 :: EvOpen (base + k)%nat false :: failed_trace base k
  end.


(** ** What the helper functions compute from a reply *)

(** The answer of [check_image_on_device]: an [RpcError] and a listing
    without 'files' both count as "not there"; other exceptions go on. *)
Definition listing_result (r : ls_reply) (image : string) : res bool :=
  match r with
  | LsRaises RpcError => Val false
  | LsRaises e => Raise (Exc e)
  | LsDict None => Val false
  | LsDict (Some files) => Val (existsb (entry_is image) files)
  end.

Definition copy_result (r : copy_reply) : bool :=
  match r with
  | CopyReturns b => b
  | CopyRaises _ => false
  end.

(** [sw.install] returned [ok = True]. *)
Definition install_accepted (i : install_reply) : bool :=
  match i with
  | InstallReturns true _ => true
  | _ => false
  end.

(** [install_image] returns [True]: accepted, and the reboot call returned. *)
Definition install_result (i : install_reply) (r : reboot_reply) : bool :=
  match i, r with
  | InstallReturns true _, RebootReturns => true
  | _, _ => false
  end.

(** [dev.facts.get('version', default).startswith(p)] *)
Definition version_matches (f : facts_reply) (default : pyval) (p : string) : res bool :=
  match f with
  | FactsRaises e => Raise (Exc e)
  | FactsDict (Some (PyStr v)) => Val (prefix p v)
  | FactsDict (Some PyNone) => Raise (Exc AttributeError)
  | FactsDict None =>
      match default with
      | PyStr v => Val (prefix p v)
      | PyNone => Raise (Exc AttributeError)
      end
  end.

(** ** Reading traces *)




(** The session [h] was opened. *)
Definition opened (h : handle) (tr : list event) : Prop :=
  In (EvOpen h true) tr.

(** Calls that change the device: copy, install, reboot. *)
Definition mutation (ev : event) : bool :=
  match ev with
  | EvCopy _ _ _ | EvInstall _ _ _ _ | EvReboot _ => true
  | _ => false
  end.


(** The events of the staging phase. *)
Definition calm (ev : event) : bool :=
  match ev with
  | EvFacts _ | EvLs _ _ | EvExists _ _ | EvCopy _ _ _ => true
  | _ => false
  end.

(** The runs of [main] once the configuration is loaded: the outcome, the
    final trace (latest event first), the [Device] objects and the final
    value of [dev].  [pre] is the trace before the first connection. *)
Inductive run_shape (pre : list event)
  : UpgradeOutcome * Z -> list event -> list bool -> option handle -> Prop :=
| shape_refused :
    run_shape pre (ConnectionFailed, 1) (EvOpen 0%nat false :: pre) [false] None
| shape_staging o stage :
    forallb calm stage = true ->
    In o [(UpgradeProcessFailed, 1); (AlreadyUpToDate, 0); (ImageCopyFailed, 1)] ->
    run_shape pre o
      (EvClose 0%nat :: stage ++ EvOpen 0%nat true :: pre)%list [false] (Some 0%nat)
| shape_install_refused stage p rp r :
    forallb calm stage = true ->
    install_accepted r = false ->
    run_shape pre (InstallFailed, 1)
      (EvClose 0%nat :: EvInstall 0%nat p rp r :: stage ++ EvOpen 0%nat true :: pre)%list
      [false] (Some 0%nat)
| shape_reboot_failed stage p rp r :
    forallb calm stage = true ->
    install_accepted r = true ->
    run_shape pre (InstallFailed, 1)
      (EvClose 0%nat :: EvReboot 0%nat :: EvInstall 0%nat p rp r
         :: stage ++ EvOpen 0%nat true :: pre)%list
      [false] (Some 0%nat)
| shape_timed_out stage p rp r n :
    forallb calm stage = true ->
    install_accepted r = true ->
    run_shape pre (RebootTimedOut, 1)
      (failed_trace 1 n ++ EvSleep 720 :: EvClose 0%nat :: EvReboot 0%nat
         :: EvInstall 0%nat p rp r :: stage ++ EvOpen 0%nat true :: pre)%list
      (false :: repeat false n) None
| shape_reconnected o stage p rp r n :
    forallb calm stage = true ->
    install_accepted r = true ->
    In o [(Success, 0); (VersionMismatch, 1)] ->
    run_shape pre o
      (EvClose (S n) :: EvFacts (S n) :: EvOpen (S n) true
         :: failed_trace 1 n ++ EvSleep 720 :: EvClose 0%nat :: EvReboot 0%nat
         :: EvInstall 0%nat p rp r :: stage ++ EvOpen 0%nat true :: pre)%list
      (false :: repeat false n ++ [false])%list (Some (S n)).

(** The state in which the [try] statement of [main] is entered when the
    first connection succeeds; [pre] is the trace left by [load_config]. *)
Definition session_start (env : Env) (t0 : Z) (pre : list event) : State :=
  {| clock := t0 + Z.of_N (connect_cost env 0%nat);
     devices := [true];
     trace := EvOpen 0%nat true :: pre;
     dev := Some 0%nat |}.

(** ** Sample environments *)

(** A device that never answers; each attempt takes [cost] on the clock. *)
Definition env_down (cost : N) : Env :=
  {| environ := fun _ => None;
     getpass_reply := "secret";
     connect_reply := fun _ => ConnRaises ConnectError;
     connect_cost := fun _ => cost;
     facts_of := fun _ => FactsDict None;
     ls_of := fun _ _ => LsDict None;
     path_exists := fun _ => false;
     copy_of := fun _ => CopyReturns false;
     install_of := fun _ => InstallReturns false "";
     reboot_of := fun _ => RebootReturns |}.

(** A lab device: the first connection succeeds; after the reboot the
    next two attempts fail, one with [ConnectError] and one with another
    exception, and the third succeeds.  Every attempt takes 2 on the clock. *)
Definition env_lab (facts : handle -> facts_reply) (ls : ls_reply)
    (local_file : bool) (install : install_reply) : Env :=
  {| environ := fun _ => None;
     getpass_reply := "secret";
     connect_reply := fun h =>
       match h with
       | 1%nat => ConnRaises ConnectError
       | 2%nat => ConnRaises OtherException
       | _ => ConnOk
       end;
     connect_cost := fun _ => 2%N;
     facts_of := facts;
     ls_of := fun _ _ => ls;
     path_exists := fun _ => local_file;
     copy_of := fun _ => CopyReturns true;
     install_of := fun _ => install;
     reboot_of := fun _ => RebootReturns |}.

(** Facts of a device that runs [before] until it reboots and [after]
    once it is back. *)
Definition facts_upgrading (before after : string) (h : handle) : facts_reply :=
  match h with
  | O => FactsDict (Some (PyStr before))
  | _ => FactsDict (Some (PyStr after))
  end.

(** Everything on the command line except the remote path and the
    expected version, which take their defaults. *)
Definition args_cli : Args :=
  {| arg_host := Some "r1.example.net";
     arg_user := Some "admin";
     arg_password := Some "secret";
     arg_image := Some "junos-24.2R2.18.tgz";
     arg_local_path := Some "/srv/images";
     arg_remote_path := None;
     arg_expected_version := None;
     arg_timeout := 60;
     arg_verbose := false |}.

(** The configuration that [args_cli] loads to. *)
Definition config_cli : Config :=
  {| host := "r1.example.net";
     user := "admin";
     password := "secret";
     image_name := "junos-24.2R2.18.tgz";
     local_image_dir := "/srv/images";
     remote_path := "/var/tmp/usb";
     expected_version := "24.2R2.18";
     timeout := 60;
     local_image_fullpath := "/srv/images/junos-24.2R2.18.tgz";
     remote_image_fullpath := "/var/tmp/usb/junos-24.2R2.18.tgz" |}.

(** The lab device already on the expected version. *)
Definition env_current : Env :=
  env_lab (fun _ => FactsDict (Some (PyStr "24.2R2.18-EVO"))) (LsDict None) false
    (InstallReturns false "").

(** The lab device whose facts have no 'version' entry. *)
Definition env_no_version : Env :=
  env_lab (fun _ => FactsDict None) (LsDict None) false (InstallReturns false "").


(** The lab device on an older version whose listing query raises
    [RpcError]; the local image exists, copy, install and reboot succeed. *)
Definition env_listing_fails : Env :=
  env_lab (facts_upgrading "23.4R1.9" "24.2R2.18") (LsRaises RpcError) true
    (InstallReturns true "ok").

(** Nothing on the command line. *)
Definition args_none : Args :=
  {| arg_host := None;
     arg_user := None;
     arg_password := None;
     arg_image := None;
     arg_local_path := None;
     arg_remote_path := None;
     arg_expected_version := None;
     arg_timeout := 720;
     arg_verbose := false |}.

(** A process environment, as a .env file with a blank JUNOS_HOST line
    leaves it: the variable is set, to the empty string. *)
Definition environ_blank_host (name : string) : option string :=
  if (name =? "JUNOS_HOST")%string then Some ""
  else if (name =? "JUNOS_USER")%string then Some "admin"
  else if (name =? "JUNOS_PASSWORD")%string then Some "secret"
  else if (name =? "JUNOS_IMAGE")%string then Some "junos-24.2R2.18.tgz"
  else if (name =? "JUNOS_IMAGE_PATH")%string then Some "/srv/images"
  else None.

Definition env_blank_host : Env :=
  {| environ := environ_blank_host;
     getpass_reply := "secret";
     connect_reply := fun _ => ConnRaises ConnectError;
     connect_cost := fun _ => 0%N;
     facts_of := fun _ => FactsDict None;
     ls_of := fun _ _ => LsDict None;
     path_exists := fun _ => false;
     copy_of := fun _ => CopyReturns false;
     install_of := fun _ => InstallReturns false "";
     reboot_of := fun _ => RebootReturns |}.

(** The required fields of a configuration are all non-empty. *)
Definition required_nonempty (c : Config) : Prop :=
  host c <> "" /\ user c <> "" /\ image_name c <> "" /\
  local_image_dir c <> "" /\ remote_path c <> "" /\ expected_version c <> "".

(** ** Vocabulary of the further properties *)

Definition is_install (ev : event) : bool :=
  match ev with
  | EvInstall _ _ _ _ => true
  | _ => false
  end.

Definition is_reboot (ev : event) : bool :=
  match ev with
  | EvReboot _ => true
  | _ => false
  end.


Definition is_open_attempt (ev : event) : bool :=
  match ev with
  | EvOpen _ _ => true
  | _ => false
  end.

(** The state with the variable [dev] of [main] set to [d]. *)
Definition with_dev (d : option handle) (s : State) : State :=
  {| clock := clock s; devices := devices s; trace := trace s; dev := d |}.

(** The state in which the probing starts: the install was accepted on
    session 0, the reboot requested, the session closed, 720 slept. *)
Definition rebooting (env : Env) (cfg : Config) (s : State) : State :=
  tick 720
    (emit (EvSleep 720)
       (set_connected 0%nat false
          (emit (EvClose 0%nat)
             (emit (EvReboot 0%nat)
                (emit (EvInstall 0%nat (basename (image_name cfg)) (remote_path cfg)
                         (install_of env 0%nat)) s))))).


(** The answer of [verify_version] on the session [d]. *)
Definition verified (env : Env) (cfg : Config) (d : handle) : bool :=
  match version_matches (facts_of env d) (PyStr "") (expected_version cfg) with
  | Val b => b
  | Raise _ => false
  end.

(** Exit status 0 goes with these outcomes. *)
Definition successful (o : UpgradeOutcome) : bool :=
  match o with
  | AlreadyUpToDate | Success => true
  | _ => false
  end.

(** How one option is resolved: the command line when it gives a
    non-empty value, otherwise what the environment (or the default) gives. *)
Definition resolved (arg fallback : option string) (v : string) : Prop :=
  if truthy arg then arg = Some v else fallback = Some v.

Definition or_default (v : option string) (default : string) : string :=
  match v with
  | Some x => x
  | None => default
  end.

(** The lab device with EXPECTED_VERSION set to the empty string. *)
Definition env_blank_expected : Env :=
  {| environ := fun name => if (name =? "EXPECTED_VERSION")%string then Some "" else None;
     getpass_reply := "secret";
     connect_reply := fun _ => ConnOk;
     connect_cost := fun _ => 2%N;
     facts_of := fun _ => FactsDict (Some (PyStr "21.1R1.11"));
     ls_of := fun _ _ => LsDict None;
     path_exists := fun _ => false;
     copy_of := fun _ => CopyReturns false;
     install_of := fun _ => InstallReturns false "";
     reboot_of := fun _ => RebootReturns |}.

(** The command line of [args_cli] without the password. *)
Definition args_no_password : Args :=
  {| arg_host := Some "r1.example.net";
     arg_user := Some "admin";
     arg_password := None;
     arg_image := Some "junos-24.2R2.18.tgz";
     arg_local_path := Some "/srv/images";
     arg_remote_path := None;
     arg_expected_version := None;
     arg_timeout := 60;
     arg_verbose := false |}.

(** The image is on the device when the install starts: the listing showed
    it, or the listing did not and the copy succeeded. *)
Definition staged (env : Env) (cfg : Config) : Prop :=
  version_matches (facts_of env 0%nat) PyNone (expected_version cfg) = Val false /\
  (listing_result (ls_of env 0%nat (remote_path cfg)) (image_name cfg) = Val true \/
   (listing_result (ls_of env 0%nat (remote_path cfg)) (image_name cfg) = Val false /\
    path_exists env (path_join (local_image_dir cfg) (image_name cfg)) = true /\
    copy_result (copy_of env 0%nat) = true)).

(** What must have happened for [main] to return the outcome [o] in the
    final state [s'], in a run started at time [t0]. *)
Definition justified (env : Env) (cfg : Config) (t0 : Z)
    (o : UpgradeOutcome) (s' : State) : Prop :=
  match o with
  | ConnectionFailed => connect_reply env 0%nat <> ConnOk
  | AlreadyUpToDate =>
      version_matches (facts_of env 0%nat) PyNone (expected_version cfg) = Val true
  | UpgradeProcessFailed =>
      (exists e, version_matches (facts_of env 0%nat) PyNone (expected_version cfg)
                 = Raise (Exc e)) \/
      (version_matches (facts_of env 0%nat) PyNone (expected_version cfg) = Val false /\
       exists e, e <> RpcError /\
                 ls_of env 0%nat (remote_path cfg) = LsRaises e)
  | ImageCopyFailed =>
      version_matches (facts_of env 0%nat) PyNone (expected_version cfg) = Val false /\
      listing_result (ls_of env 0%nat (remote_path cfg)) (image_name cfg) = Val false /\
      (path_exists env (path_join (local_image_dir cfg) (image_name cfg)) = false \/
       copy_result (copy_of env 0%nat) = false)
  | InstallFailed =>
      staged env cfg /\
      install_result (install_of env 0%nat) (reboot_of env 0%nat) = false
  | RebootTimedOut =>
      staged env cfg /\
      install_result (install_of env 0%nat) (reboot_of env 0%nat) = true /\
      t0 + 720 + timeout cfg <= clock s'
  | Success =>
      staged env cfg /\
      install_result (install_of env 0%nat) (reboot_of env 0%nat) = true /\
      exists d, d <> 0%nat /\ dev s' = Some d /\ opened d (trace s') /\
                verified env cfg d = true
  | VersionMismatch =>
      staged env cfg /\
      install_result (install_of env 0%nat) (reboot_of env 0%nat) = true /\
      exists d, d <> 0%nat /\ dev s' = Some d /\ opened d (trace s') /\
                verified env cfg d = false
  end.


Definition is_prompt (ev : event) : bool :=
  match ev with
  | EvGetpass => true
  | _ => false
  end.

(** ** Further sample environments *)


(** The same device whose listing query loses the connection. *)
Definition env_listing_breaks : Env :=
  env_lab (facts_upgrading "23.4R1.9" "24.2R2.18") (LsRaises ConnectError) true
    (InstallReturns true "ok").

(** The same device, which does not come back after the reboot. *)
Definition env_never_returns : Env :=
  {| environ := fun _ => None;
     getpass_reply := "secret";
     connect_reply := fun h => match h with O => ConnOk | _ => ConnRaises ConnectError end;
     connect_cost := fun _ => 2%N;
     facts_of := facts_upgrading "23.4R1.9" "24.2R2.18";
     ls_of := fun _ _ => LsDict (Some [Some "junos-24.2R2.18.tgz"]);
     path_exists := fun _ => true;
     copy_of := fun _ => CopyReturns true;
     install_of := fun _ => InstallReturns true "ok";
     reboot_of := fun _ => RebootReturns |}.



(** What [args_cli] loads to when EXPECTED_VERSION is set but empty. *)
Definition config_blank_expected : Config :=
  {| host := "r1.example.net";
     user := "admin";
     password := "secret";
     image_name := "junos-24.2R2.18.tgz";
     local_image_dir := "/srv/images";
     remote_path := "/var/tmp/usb";
     expected_version := "";
     timeout := 60;
     local_image_fullpath := "/srv/images/junos-24.2R2.18.tgz";
     remote_image_fullpath := "/var/tmp/usb/junos-24.2R2.18.tgz" |}.


(** * Properties *)

(** ** The reconnection loop *)

Section ProbeFacts.

Variable env : Env.
Variables host user password : string.

Lemma probe_attempt_run s :
  probe_attempt env host user password s =
    match connect_reply env (List.length (devices s)) with
    | ConnOk => (Val (Some (List.length (devices s))), good_pass env s)
    | ConnRaises _ =>
        (Val None, emit (EvOpen (List.length (devices s)) false) (attempted env s))
    end.
Proof.
  unfold probe_attempt, try_except, bind, new_Device, dev_open, ret. cbn.
  destruct (connect_reply env _) as [|e]; [reflexivity | destruct e; reflexivity].
Qed.

Lemma probe_loop_step deadline s :
  probe_loop env host user password deadline s =
    if clock s <? deadline then
      match probe_attempt env host user password s with
      | (Val (Some d), s1) => (Val (Some d), s1)
      | (Raise r, s1) => (Raise r, s1)
      | (Val None, s1) =>
          probe_loop env host user password deadline (snd (time_sleep 10 s1))
      end
    else (Val None, s).
Proof.
  funelim (probe_loop env host user password deadline s); clear Heqcall.
  - rewrite Hge. reflexivity.
  - rewrite Hlt, Hb. reflexivity.
  - rewrite Hlt, Hb. reflexivity.
  - rewrite Hlt, Hb. reflexivity.
Qed.

(** The loop written over passes. *)
Lemma probe_loop_pass deadline s :
  probe_loop env host user password deadline s =
    if clock s <? deadline then
      match connect_reply env (List.length (devices s)) with
      | ConnOk => (Val (Some (List.length (devices s))), good_pass env s)
      | ConnRaises _ =>
          probe_loop env host user password deadline (failed_pass env s)
      end
    else (Val None, s).
Proof.
  rewrite probe_loop_step, probe_attempt_run.
  destruct (clock s <? deadline); [|reflexivity].
  destruct (connect_reply env _); reflexivity.
Qed.

Lemma failed_pass_clock s :
  clock (failed_pass env s) =
    clock s + Z.of_N (connect_cost env (List.length (devices s))) + 10.
Proof. reflexivity. Qed.

Lemma failed_pass_devices s :
  devices (failed_pass env s) = (devices s ++ [false])%list.
Proof. reflexivity. Qed.

Lemma failed_pass_trace s :
  trace (failed_pass env s) =
    EvSleep 10 :: EvOpen (List.length (devices s)) false :: trace s.
Proof. reflexivity. Qed.

Lemma probe_loop_end deadline s :
  loop_end env deadline s (probe_loop env host user password deadline s).
Proof.
  remember (Z.to_nat (deadline - clock s)) as m eqn:Hm.
  revert s Hm. induction m as [m IH] using lt_wf_ind. intros s Hm.
  rewrite probe_loop_pass.
  destruct (clock s <? deadline) eqn:Hlt.
  - apply Z.ltb_lt in Hlt.
    destruct (connect_reply env (List.length (devices s))) as [|e] eqn:Hc.
    + apply (loop_connected env deadline s 0); cbn; auto. intros k Hk; lia.
    + assert (Hdec : (Z.to_nat (deadline - clock (failed_pass env s)) < m)%nat).
      { rewrite failed_pass_clock. lia. }
      specialize (IH _ Hdec (failed_pass env s) eq_refl).
      assert (Hshift : forall k, Nat.iter k (failed_pass env) (failed_pass env s)
                                 = Nat.iter (S k) (failed_pass env) s).
      { intro k. symmetry. apply Nat.iter_succ_r. }
      assert (Hpre : forall n,
        (forall k, (k < n)%nat ->
           clock (Nat.iter k (failed_pass env) (failed_pass env s)) < deadline /\
           connect_reply env
             (List.length (devices (Nat.iter k (failed_pass env) (failed_pass env s))))
             <> ConnOk) ->
        forall k, (k < S n)%nat ->
           clock (Nat.iter k (failed_pass env) s) < deadline /\
           connect_reply env
             (List.length (devices (Nat.iter k (failed_pass env) s))) <> ConnOk).
      { intros n H k Hk. destruct k as [|k].
        - cbn. split; [assumption | congruence].
        - rewrite <- Hshift. apply H. lia. }
      inversion IH as [n Hall Hend Heq | n Hall Hbefore Hok Heq].
      * rewrite Hshift. apply (loop_timeout env deadline s (S n)).
        -- apply Hpre, Hall.
        -- rewrite <- Hshift. exact Hend.
      * rewrite Hshift. apply (loop_connected env deadline s (S n)).
        -- apply Hpre, Hall.
        -- rewrite <- Hshift. exact Hbefore.
        -- rewrite <- Hshift. exact Hok.
  - apply Z.ltb_ge in Hlt.
    apply (loop_timeout env deadline s 0); cbn; auto. intros k Hk; lia.
Qed.

Lemma failed_passes_devices n s :
  devices (Nat.iter n (failed_pass env) s) = (devices s ++ repeat false n)%list.
Proof.
  induction n as [|n IH].
  - cbn. now rewrite app_nil_r.
  - rewrite Nat.iter_succ, failed_pass_devices, IH, <- app_assoc. f_equal.
    change [false] with (repeat false 1). rewrite <- repeat_app.
    f_equal. lia.
Qed.

Lemma failed_passes_length n s :
  List.length (devices (Nat.iter n (failed_pass env) s))
  = (List.length (devices s) + n)%nat.
Proof. rewrite failed_passes_devices, length_app, repeat_length. reflexivity. Qed.

Lemma failed_passes_trace n s :
  trace (Nat.iter n (failed_pass env) s) =
    (failed_trace (List.length (devices s)) n ++ trace s)%list.
Proof.
  induction n as [|n IH]; [reflexivity|].
  cbn [failed_trace].
  rewrite Nat.iter_succ, failed_pass_trace, IH, failed_passes_length. reflexivity.
Qed.


Lemma failed_passes_clock_ge n s :
  clock s + 10 * Z.of_nat n <= clock (Nat.iter n (failed_pass env) s).
Proof.
  induction n as [|n IH]; [cbn; lia|].
  rewrite Nat.iter_succ, failed_pass_clock. lia.
Qed.

End ProbeFacts.



(** C7.  Whatever the connection attempts raise, [probe_device] returns a
    value: it ran some number [n] of failed passes, each followed by its
    sleep, and then stopped for one of two reasons only: an attempt
    succeeded and its [Device] is returned, or the deadline had passed. *)
Theorem probe_device_only_exits env host user password timeout s :
  exists r n s',
    probe_device env host user password timeout s = (Val r, s') /\
    (forall k, (k < n)%nat ->
       connect_reply env (List.length (devices s) + k)%nat <> ConnOk) /\
    match r with
    | Some d =>
        d = (List.length (devices s) + n)%nat /\
        connect_reply env d = ConnOk /\
        trace s' = (EvOpen d true :: failed_trace (List.length (devices s)) n
                      ++ trace s)%list
    | None =>
        clock s + timeout <= clock s' /\
        trace s' = (failed_trace (List.length (devices s)) n ++ trace s)%list
    end.
Proof.
  unfold probe_device, bind, time_time.
  destruct (probe_loop_end env host user password (clock s + timeout) s)
    as [n Hall Hend | n Hall Hbefore Hok].
  - exists None, n, (Nat.iter n (failed_pass env) s).
    split; [reflexivity|]. split.
    + intros k Hk. destruct (Hall k Hk) as [_ H].
      now rewrite failed_passes_length in H.
    + split; [exact Hend | apply failed_passes_trace].
  - rewrite failed_passes_length in Hok |- *.
    exists (Some (List.length (devices s) + n)%nat), n,
           (good_pass env (Nat.iter n (failed_pass env) s)).
    split; [reflexivity|]. split.
    + intros k Hk. destruct (Hall k Hk) as [_ H].
      now rewrite failed_passes_length in H.
    + split; [reflexivity|]. split; [exact Hok|].
      cbn. now rewrite failed_passes_trace, failed_passes_length.
Qed.





(** ** What each function of the script does in one step *)

Section Runs.

Variable env : Env.

Lemma bind_assoc {A B C} (m : M A) (k : A -> M B) (k' : B -> M C) s :
  bind m (fun a => bind (k a) k') s = bind (bind m k) k' s.
Proof. unfold bind. destruct (m s) as [[a|r] s1]; reflexivity. Qed.

Lemma connect_device_run host user password s :
  connect_device env host user password s =
    match connect_reply env (List.length (devices s)) with
    | ConnOk => (Val (Some (List.length (devices s))), good_pass env s)
    | ConnRaises _ =>
        (Val None, emit (EvOpen (List.length (devices s)) false) (attempted env s))
    end.
Proof. apply probe_attempt_run. Qed.

Lemma version_check_run d dflt p s :
  bind (dev_facts_get_version env d dflt) (fun v => py_startswith v p) s =
    (version_matches (facts_of env d) dflt p, emit (EvFacts d) s).
Proof.
  unfold bind, dev_facts_get_version, py_startswith, version_matches.
  destruct (facts_of env d) as [e|[[|v]|]]; try reflexivity.
  destruct dflt; reflexivity.
Qed.

Lemma check_image_on_device_run d remote image s :
  check_image_on_device env d remote image s =
    (listing_result (ls_of env d remote) image, emit (EvLs d remote) s).
Proof.
  unfold check_image_on_device, try_except, bind, fs_ls, listing_result.
  destruct (ls_of env d remote) as [e|[files|]]; try reflexivity.
  destruct e; reflexivity.
Qed.

Lemma copy_image_to_device_run d local_path remote image s :
  copy_image_to_device env d local_path remote image s =
    let full := path_join local_path image in
    if path_exists env full then
      (Val (copy_result (copy_of env d)),
       emit (EvCopy d full remote) (emit (EvExists full true) s))
    else (Val false, emit (EvExists full false) s).
Proof.
  unfold copy_image_to_device, try_except, bind, os_path_exists, sw_safe_copy.
  cbn. destruct (path_exists env _); cbn; [|reflexivity].
  destruct (copy_of env d) as [e|[|]]; reflexivity.
Qed.

Lemma install_image_run d remote image s :
  install_image env d remote image s =
    let s1 := emit (EvInstall d (basename image) remote (install_of env d)) s in
    if install_accepted (install_of env d) then
      (Val (install_result (install_of env d) (reboot_of env d)), emit (EvReboot d) s1)
    else (Val false, s1).
Proof.
  unfold install_image, try_except, bind, sw_install, sw_reboot. cbn.
  destruct (install_of env d) as [e|[|] msg]; cbn; try reflexivity.
  destruct (reboot_of env d); reflexivity.
Qed.

Lemma verify_version_run d p s :
  verify_version env d p s =
    (Val (match version_matches (facts_of env d) (PyStr "") p with
          | Val b => b
          | Raise _ => false
          end), emit (EvFacts d) s).
Proof.
  unfold verify_version, try_except, bind, dev_facts_get_version, py_startswith.
  cbn. destruct (facts_of env d) as [e|[[|v]|]]; cbn; try reflexivity.
  - destruct (prefix p v); reflexivity.
  - destruct p; reflexivity.
Qed.

(** [load_config] either exits with status 1 and touches nothing, or
    returns a configuration, having at most prompted for the password. *)
Lemma load_config_run args s :
  match load_config env args s with
  | (Val cfg, s1) =>
      missing (raw_config env args) = [] /\
      devices s1 = devices s /\ clock s1 = clock s /\ dev s1 = dev s /\
      (if truthy (raw_password (raw_config env args))
       then trace s1 = trace s
       else trace s1 = EvGetpass :: trace s /\ password cfg = getpass_reply env)
  | (Raise r, s1) =>
      missing (raw_config env args) <> [] /\ r = SystemExit 1 /\ s1 = s
  end.
Proof.
  unfold load_config. destruct (missing _) as [|k ks].
  - unfold bind, getpass, ret.
    destruct (truthy _); cbn; repeat split; reflexivity.
  - cbn. repeat split. discriminate.
Qed.

Lemma set_nth_last (l : list bool) x b :
  set_nth (List.length l) b (l ++ [x]) = (l ++ [b])%list.
Proof. induction l as [|y l IH]; cbn; [reflexivity | now rewrite IH]. Qed.

Lemma set_nth_repeat n x b :
  set_nth n b (repeat false n ++ [x]) = (repeat false n ++ [b])%list.
Proof.
  rewrite <- (repeat_length false n) at 1. apply set_nth_last.
Qed.

(** Lines 274-316 from a state in which session 0 is open and is [dev]:
    the install phase, then the [finally] clause. *)
Lemma main_install_shape cfg s stage pre :
  devices s = [true] ->
  dev s = Some 0%nat ->
  trace s = (stage ++ EvOpen 0%nat true :: pre)%list ->
  forallb calm stage = true ->
  exists o sb s',
    main_install env cfg 0%nat s = (Val o, sb) /\
    main_finally sb = (Val tt, s') /\
    run_shape pre o (trace s') (devices s') (dev s') /\
    In o [(InstallFailed, 1); (RebootTimedOut, 1); (Success, 0); (VersionMismatch, 1)] /\
    exists post,
      trace s' = (post ++ EvInstall 0%nat (basename (image_name cfg)) (remote_path cfg)
                            (install_of env 0%nat) :: trace s)%list.
Proof.
  intros Hds Hdv Htr Hcalm. destruct s as [t ds tr dv]. cbn in Hds, Hdv, Htr. subst.
  unfold main_install. unfold bind at 1. rewrite install_image_run. cbv zeta.
  destruct (install_accepted (install_of env 0%nat)) eqn:Hacc.
  - destruct (install_result _ _) eqn:Hres; cbv iota beta.
    + unfold bind at 1. cbn [dev_close]. unfold bind at 1. cbn [time_sleep].
      unfold bind at 1. unfold probe_device, bind at 1. cbn [time_time].
      match goal with |- context [probe_loop env ?h ?u ?p ?dl ?s0] =>
        destruct (probe_loop_end env h u p dl s0) as [n Hall Hend | n Hall Hbefore Hok]
      end.
      * (* the deadline passed *)
        unfold bind at 1. cbn [set_dev ret].
        do 3 eexists. split; [reflexivity|].
        unfold main_finally, bind, get_dev. cbn [dev]. split; [reflexivity|].
        cbn [trace devices dev].
        rewrite failed_passes_trace, failed_passes_devices.
        cbn [trace devices dev emit tick set_connected set_nth List.length app].
        split; [apply shape_timed_out; assumption|].
        split; [cbn; auto|].
        exists (failed_trace 1 n ++ [EvSleep 720; EvClose 0%nat; EvReboot 0%nat])%list.
        rewrite <- app_assoc. reflexivity.
      * (* the device answered *)
        unfold bind at 1. cbn [set_dev ret]. unfold bind at 1.
        rewrite verify_version_run.
        set (ok := match version_matches _ _ _ with Val b => b | Raise _ => false end).
        exists (if ok then (Success, 0) else (VersionMismatch, 1)).
        do 2 eexists. split; [destruct ok; reflexivity|].
        unfold main_finally, bind, get_dev, dev_connected, dev_close.
        cbn [dev emit good_pass set_connected attempted alloc tick devices trace clock].
        rewrite !set_nth_last, nth_middle. cbv iota beta. split; [reflexivity|].
        cbn [trace devices dev].
        clear Hall Hbefore Hok. clearbody ok.
        rewrite failed_passes_length, failed_passes_trace, failed_passes_devices.
        cbn [trace devices dev emit tick set_connected set_nth List.length app Nat.add].
        rewrite set_nth_repeat.
        split; [apply shape_reconnected; try assumption; destruct ok; cbn; auto|].
        split; [destruct ok; cbn; auto|].
        exists (EvClose (S n) :: EvFacts (S n) :: EvOpen (S n) true
                  :: failed_trace 1 n ++ [EvSleep 720; EvClose 0%nat; EvReboot 0%nat])%list.
        cbn [app]. rewrite <- app_assoc. reflexivity.
    + do 3 eexists. split; [reflexivity|].
      unfold main_finally, bind, get_dev, dev_connected, dev_close. cbn.
      split; [reflexivity|]. cbn.
      split; [apply shape_reboot_failed; assumption|].
      split; [auto|].
      exists [EvClose 0%nat; EvReboot 0%nat]. reflexivity.
  - do 3 eexists. split; [reflexivity|].
    unfold main_finally, bind, get_dev, dev_connected, dev_close. cbn.
    split; [reflexivity|]. cbn.
    split; [apply shape_install_refused; assumption|].
    split; [auto|].
    exists [EvClose 0%nat]. reflexivity.
Qed.

(** Lines 253-316 from a state without [Device] objects: every run has
    one of the shapes of [run_shape]. *)
Lemma session_shape cfg s1 :
  devices s1 = [] ->
  exists o s',
    bind (connect_device env (host cfg) (user cfg) (password cfg))
      (fun d => bind (set_dev d) (fun _ =>
         match d with
         | None => ret (ConnectionFailed, 1)
         | Some h =>
             try_finally
               (try_except (main_try env cfg h)
                  (except_Exception (fun _ => ret (UpgradeProcessFailed, 1))))
               main_finally
         end)) s1 = (Val o, s') /\
    run_shape (trace s1) o (trace s') (devices s') (dev s').
Proof.
  intros Hdev. destruct s1 as [t ds tr dv]. cbn in Hdev. subst ds.
  unfold bind at 1. rewrite connect_device_run. cbn [devices List.length].
  destruct (connect_reply env 0%nat) as [|e] eqn:Hconn.
  2:{ do 2 eexists. split; [reflexivity|]. cbn. constructor. }
  unfold bind at 1.
  cbn [set_dev good_pass attempted alloc tick emit set_connected clock devices
       trace dev set_nth app List.length].
  set (t1 := t + Z.of_N (connect_cost env 0%nat)).
  unfold try_finally, try_except, main_try.
  rewrite bind_assoc.
  unfold bind at 1. rewrite version_check_run.
  destruct (version_matches (facts_of env 0%nat) PyNone (expected_version cfg))
    as [[|]|[e|code]] eqn:Hver.
  - (* already on the expected version *)
    cbn. do 2 eexists. split; [reflexivity|]. cbn.
    apply (shape_staging _ _ [_]); cbn; auto.
  - unfold bind at 1. rewrite check_image_on_device_run.
    destruct (listing_result _ _) as [[|]|[e|code]] eqn:Hls; cbv iota beta; cbn [negb].
    + match goal with |- context [main_install env cfg 0%nat ?s0] =>
        destruct (main_install_shape cfg s0 [EvLs 0%nat (remote_path cfg); EvFacts 0%nat] tr
                    eq_refl eq_refl eq_refl eq_refl)
          as (o & sb & s' & Hrun & Hfin & Hshape & _)
      end.
      rewrite Hrun. cbv iota beta. rewrite Hfin.
      exists o, s'. split; [reflexivity | exact Hshape].
    + unfold bind at 1. rewrite copy_image_to_device_run. cbv zeta.
      destruct (path_exists env _) eqn:Hex.
      * destruct (copy_result _) eqn:Hcp; cbv iota beta; cbn [negb].
        -- match goal with |- context [main_install env cfg 0%nat ?s0] =>
             destruct (main_install_shape cfg s0
                         [EvCopy 0%nat (path_join (local_image_dir cfg) (image_name cfg))
                            (remote_path cfg);
                          EvExists (path_join (local_image_dir cfg) (image_name cfg)) true;
                          EvLs 0%nat (remote_path cfg); EvFacts 0%nat] tr
                         eq_refl eq_refl eq_refl eq_refl)
               as (o & sb & s' & Hrun & Hfin & Hshape & _)
           end.
           rewrite Hrun. cbv iota beta. rewrite Hfin.
           exists o, s'. split; [reflexivity | exact Hshape].
        -- cbn. do 2 eexists. split; [reflexivity|]. cbn.
           apply (shape_staging _ _ [_;_;_;_]); cbn; auto.
      * cbn. do 2 eexists. split; [reflexivity|]. cbn.
        apply (shape_staging _ _ [_;_;_]); cbn; auto.
    + cbn. do 2 eexists. split; [reflexivity|]. cbn.
      apply (shape_staging _ _ [_;_]); cbn; auto.
    + exfalso. unfold listing_result in Hls.
      destruct (ls_of env _ _) as [[]|[|]]; discriminate.
  - cbn. do 2 eexists. split; [reflexivity|]. cbn.
    apply (shape_staging _ _ [_]); cbn; auto.
  - exfalso. unfold version_matches in Hver.
    destruct (facts_of env _) as [|[[|]|]]; discriminate.
Qed.

(** Every run of [main] from a fresh process: it exits in [load_config]
    with status 1 before anything happened, or it returns with one of the
    shapes, the trace before the connection being at most the prompt. *)
Lemma main_shape args t0 :
  match main env args (init_state t0) with
  | (Val o, s') =>
      exists pre, (pre = [] \/ pre = [EvGetpass]) /\
                  run_shape pre o (trace s') (devices s') (dev s')
  | (Raise r, s') => r = SystemExit 1 /\ s' = init_state t0
  end.
Proof.
  unfold main. unfold bind at 1.
  pose proof (load_config_run args (init_state t0)) as Hload.
  destruct (load_config env args (init_state t0)) as [[cfg|r] s1].
  - destruct Hload as (_ & Hds & _ & _ & Htr).
    destruct (session_shape cfg s1 Hds) as (o & s' & Hrun & Hshape).
    rewrite Hrun. exists (trace s1). split; [|exact Hshape].
    destruct (truthy _); [left; exact Htr | right; exact (proj1 Htr)].
  - destruct Hload as (_ & Hr & Hs). split; assumption.
Qed.

Lemma script_of_main args s o code s' :
  main env args s = (Val (o, code), s') -> script env args s = (code, s').
Proof. unfold script. now intros ->. Qed.

End Runs.

(** ** Reading the shapes *)

Lemma calm_in stage ev :
  forallb calm stage = true -> In ev stage -> calm ev = true.
Proof. intros H Hin. rewrite forallb_forall in H. auto. Qed.

Lemma failed_trace_in base n ev :
  In ev (failed_trace base n) -> ev = EvSleep 10 \/ exists h, ev = EvOpen h false.
Proof.
  induction n as [|n IH]; cbn; [tauto|].
  intros [<- | [<- | Hin]]; eauto.
Qed.
























(** ** Runs along one path *)

Lemma main_session env args t0 cfg s1 :
  load_config env args (init_state t0) = (Val cfg, s1) ->
  connect_reply env 0%nat = ConnOk ->
  main env args (init_state t0) =
    try_finally
      (try_except (main_try env cfg 0%nat)
         (except_Exception (fun _ => ret (UpgradeProcessFailed, 1))))
      main_finally (session_start env t0 (trace s1)).
Proof.
  intros Hload Hconn.
  pose proof (load_config_run env args (init_state t0)) as H.
  rewrite Hload in H. destruct H as (_ & Hds & Hck & Hdv & _).
  unfold main. unfold bind at 1. rewrite Hload.
  unfold bind at 1. rewrite connect_device_run, Hds. cbn [devices init_state List.length].
  rewrite Hconn. unfold bind at 1. unfold session_start.
  destruct s1 as [c ds tr dv]. cbn in Hds, Hck, Hdv. subst. reflexivity.
Qed.

Lemma pre_of_load env args t0 cfg s1 :
  load_config env args (init_state t0) = (Val cfg, s1) ->
  trace s1 = [] \/ trace s1 = [EvGetpass].
Proof.
  intro Hload.
  pose proof (load_config_run env args (init_state t0)) as H.
  rewrite Hload in H. destruct H as (_ & _ & _ & _ & Htr).
  destruct (truthy _); [left; exact Htr | right; exact (proj1 Htr)].
Qed.

Lemma main_try_version_check env cfg s :
  main_try env cfg 0%nat s =
    match version_matches (facts_of env 0%nat) PyNone (expected_version cfg) with
    | Val true => (Val (AlreadyUpToDate, 0), emit (EvFacts 0%nat) s)
    | Val false =>
        bind (check_image_on_device env 0%nat (remote_path cfg) (image_name cfg))
          (fun image_exists =>
             if negb image_exists then
               bind (copy_image_to_device env 0%nat (local_image_dir cfg)
                       (remote_path cfg) (image_name cfg))
                 (fun copied =>
                    if negb copied then ret (ImageCopyFailed, 1)
                    else main_install env cfg 0%nat)
             else main_install env cfg 0%nat)
          (emit (EvFacts 0%nat) s)
    | Raise r => (Raise r, emit (EvFacts 0%nat) s)
    end.
Proof.
  unfold main_try. rewrite bind_assoc. unfold bind at 1. rewrite version_check_run.
  destruct (version_matches _ _ _) as [[|]|r]; reflexivity.
Qed.


(** C1.  When the session opens and the facts give a version that starts
    with the expected prefix, [main] returns AlreadyUpToDate with exit code
    0 and the process exits with status 0; the device saw the connection,
    the facts query and the close, and no copy, install or reboot. *)
Theorem main_already_up_to_date env args t0 cfg s1 v :
  load_config env args (init_state t0) = (Val cfg, s1) ->
  connect_reply env 0%nat = ConnOk ->
  facts_of env 0%nat = FactsDict (Some (PyStr v)) ->
  prefix (expected_version cfg) v = true ->
  exists s',
    main env args (init_state t0) = (Val (AlreadyUpToDate, 0), s') /\
    script env args (init_state t0) = (0, s') /\
    trace s' = EvClose 0%nat :: EvFacts 0%nat :: EvOpen 0%nat true :: trace s1 /\
    forallb (fun ev => negb (mutation ev)) (trace s') = true.
Proof.
  intros Hload Hconn Hfacts Hpre.
  assert (Hmain : exists s',
    main env args (init_state t0) = (Val (AlreadyUpToDate, 0), s') /\
    trace s' = EvClose 0%nat :: EvFacts 0%nat :: EvOpen 0%nat true :: trace s1).
  { rewrite (main_session _ _ _ _ _ Hload Hconn). unfold try_finally, try_except.
    rewrite main_try_version_check. unfold version_matches. rewrite Hfacts, Hpre.
    cbn. eexists. split; reflexivity. }
  destruct Hmain as (s' & Hmain & Htrace).
  exists s'. split; [exact Hmain|]. split; [exact (script_of_main _ _ _ _ _ _ Hmain)|].
  split; [exact Htrace|].
  rewrite Htrace. cbn. destruct (pre_of_load _ _ _ _ _ Hload) as [-> | ->]; reflexivity.
Qed.

(** C9.  When the facts have no 'version' entry, [get] gives [None], the
    call of [startswith] on it raises inside the [try] body, and the run
    ends in the generic handler: outcome UpgradeProcessFailed, exit code 1,
    the session closed by the [finally] clause. *)
Theorem main_version_missing env args t0 cfg s1 :
  load_config env args (init_state t0) = (Val cfg, s1) ->
  connect_reply env 0%nat = ConnOk ->
  facts_of env 0%nat = FactsDict None ->
  (forall s, main_try env cfg 0%nat s
             = (Raise (Exc AttributeError), emit (EvFacts 0%nat) s)) /\
  exists s',
    main env args (init_state t0) = (Val (UpgradeProcessFailed, 1), s') /\
    script env args (init_state t0) = (1, s') /\
    trace s' = EvClose 0%nat :: EvFacts 0%nat :: EvOpen 0%nat true :: trace s1.
Proof.
  intros Hload Hconn Hfacts.
  assert (Htry : forall s, main_try env cfg 0%nat s
                           = (Raise (Exc AttributeError), emit (EvFacts 0%nat) s)).
  { intro s. rewrite main_try_version_check. unfold version_matches.
    rewrite Hfacts. reflexivity. }
  split; [exact Htry|].
  assert (Hmain : exists s',
    main env args (init_state t0) = (Val (UpgradeProcessFailed, 1), s') /\
    trace s' = EvClose 0%nat :: EvFacts 0%nat :: EvOpen 0%nat true :: trace s1).
  { rewrite (main_session _ _ _ _ _ Hload Hconn). unfold try_finally, try_except.
    rewrite Htry. cbn. eexists. split; reflexivity. }
  destruct Hmain as (s' & Hmain & Htrace).
  exists s'. split; [exact Hmain|]. split; [exact (script_of_main _ _ _ _ _ _ Hmain)|].
  exact Htrace.
Qed.



(** ** The configuration loader *)

Lemma missing_nil c :
  missing c = [] <->
  is_None (raw_host c) = false /\ is_None (raw_user c) = false /\
  is_None (raw_image_name c) = false /\ is_None (raw_local_image_dir c) = false /\
  is_None (raw_remote_path c) = false /\ is_None (raw_expected_version c) = false.
Proof.
  unfold missing, items.
  destruct (raw_host c), (raw_user c), (raw_password c), (raw_image_name c),
    (raw_local_image_dir c), (raw_remote_path c), (raw_expected_version c);
    cbn; split; intro H; try discriminate; try tauto;
    try (repeat split; reflexivity);
    try (destruct H as (? & ? & ? & ? & ? & ?); discriminate).
Qed.

(** A required field that is [None] makes [load_config] exit with status 1
    before it prompts or connects. *)
Lemma load_config_rejects_missing env args s :
  is_None (raw_host (raw_config env args)) = true \/
  is_None (raw_user (raw_config env args)) = true \/
  is_None (raw_image_name (raw_config env args)) = true \/
  is_None (raw_local_image_dir (raw_config env args)) = true ->
  load_config env args s = (Raise (SystemExit 1), s) /\
  script env args s = (1, s).
Proof.
  intro Hnone.
  assert (Hmiss : missing (raw_config env args) <> []).
  { intro Hnil. apply missing_nil in Hnil.
    destruct Hnil as (H1 & H2 & H3 & H4 & _).
    destruct Hnone as [H | [H | [H | H]]]; congruence. }
  assert (Hload : load_config env args s = (Raise (SystemExit 1), s)).
  { unfold load_config. destruct (missing _); [congruence | reflexivity]. }
  split; [exact Hload|].
  unfold script, main, bind. rewrite Hload. reflexivity.
Qed.

(** A configuration that [load_config] returns has every required field
    set, that is, not [None]; the password is the one given or, when none
    was given, the one typed at the prompt. *)
Lemma load_config_required_present env args s cfg s1 :
  load_config env args s = (Val cfg, s1) ->
  raw_host (raw_config env args) = Some (host cfg) /\
  raw_user (raw_config env args) = Some (user cfg) /\
  raw_image_name (raw_config env args) = Some (image_name cfg) /\
  raw_local_image_dir (raw_config env args) = Some (local_image_dir cfg) /\
  raw_remote_path (raw_config env args) = Some (remote_path cfg) /\
  raw_expected_version (raw_config env args) = Some (expected_version cfg) /\
  (if truthy (raw_password (raw_config env args))
   then raw_password (raw_config env args) = Some (password cfg) /\ trace s1 = trace s
   else password cfg = getpass_reply env /\ trace s1 = EvGetpass :: trace s).
Proof.
  unfold load_config.
  destruct (missing (raw_config env args)) as [|k ks] eqn:Hmiss; [|discriminate].
  apply missing_nil in Hmiss. destruct Hmiss as (H1 & H2 & H3 & H4 & H5 & H6).
  unfold bind, getpass, ret.
  destruct (raw_host _), (raw_user _), (raw_image_name _), (raw_local_image_dir _),
    (raw_remote_path _), (raw_expected_version _); try discriminate.
  destruct (raw_password _) as [pw|]; cbn;
    [destruct (pw =? "")%string; cbn|]; intros [= <- <-]; cbn;
    repeat split; reflexivity.
Qed.

Lemma shape_trace_pre pre o tr devs dv :
  run_shape pre o tr devs dv -> exists later, tr = (later ++ pre)%list.
Proof.
  intros [].
  - exists [EvOpen 0%nat false]. reflexivity.
  - exists (EvClose 0%nat :: stage ++ [EvOpen 0%nat true])%list.
    cbn. rewrite <- app_assoc. reflexivity.
  - exists (EvClose 0%nat :: EvInstall 0%nat p rp r :: stage ++ [EvOpen 0%nat true])%list.
    cbn. rewrite <- app_assoc. reflexivity.
  - exists (EvClose 0%nat :: EvReboot 0%nat :: EvInstall 0%nat p rp r
              :: stage ++ [EvOpen 0%nat true])%list.
    cbn. rewrite <- app_assoc. reflexivity.
  - exists (failed_trace 1 n ++ EvSleep 720 :: EvClose 0%nat :: EvReboot 0%nat
              :: EvInstall 0%nat p rp r :: stage ++ [EvOpen 0%nat true])%list.
    rewrite <- app_assoc. cbn. rewrite <- app_assoc. reflexivity.
  - exists (EvClose (S n) :: EvFacts (S n) :: EvOpen (S n) true
              :: failed_trace 1 n ++ EvSleep 720 :: EvClose 0%nat :: EvReboot 0%nat
              :: EvInstall 0%nat p rp r :: stage ++ [EvOpen 0%nat true])%list.
    cbn. rewrite <- app_assoc. cbn. rewrite <- app_assoc. reflexivity.
Qed.

(** When no password is given, the prompt is the first thing that happens:
    it is the oldest event of the trace, before every connection attempt. *)
Lemma main_prompts_before_connecting env args t0 o s' :
  truthy (raw_password (raw_config env args)) = false ->
  main env args (init_state t0) = (Val o, s') ->
  exists later, trace s' = (later ++ [EvGetpass])%list.
Proof.
  intros Hpw Hmain.
  unfold main in Hmain. unfold bind at 1 in Hmain.
  pose proof (load_config_run env args (init_state t0)) as Hload.
  destruct (load_config env args (init_state t0)) as [[cfg|r] s1]; [|discriminate].
  destruct Hload as (_ & Hds & _ & _ & Htr). rewrite Hpw in Htr.
  destruct (session_shape env cfg s1 Hds) as (o' & s'' & Hrun & Hshape).
  rewrite Hrun in Hmain. injection Hmain as <- <-.
  destruct (shape_trace_pre _ _ _ _ _ Hshape) as (later & ->).
  exists later. now rewrite (proj1 Htr).
Qed.

(** C8.  The loader tests the fields for [None] only.  With JUNOS_HOST set
    to the empty string and no --host, [load_config] returns a
    configuration whose host is empty, and [main] goes on to a connection
    attempt with it. *)
Theorem load_config_accepts_blank_host :
  exists cfg,
    load_config env_blank_host args_none (init_state 0) = (Val cfg, init_state 0) /\
    host cfg = "" /\
    ~ required_nonempty cfg /\
    trace (snd (main env_blank_host args_none (init_state 0))) = [EvOpen 0%nat false].
Proof.
  eexists. split; [vm_compute; reflexivity|].
  split; [reflexivity|]. split; [|reflexivity].
  intros (Hhost & _). apply Hhost. reflexivity.
Qed.

(** ** The theorems at the sample environments *)

Lemma main_already_up_to_date_witness :
  exists s',
    main env_current args_cli (init_state 0) = (Val (AlreadyUpToDate, 0), s') /\
    script env_current args_cli (init_state 0) = (0, s') /\
    trace s' = EvClose 0%nat :: EvFacts 0%nat :: EvOpen 0%nat true
                 :: trace (init_state 0) /\
    forallb (fun ev => negb (mutation ev)) (trace s') = true.
Proof.
  apply (main_already_up_to_date env_current args_cli 0 config_cli (init_state 0)
           "24.2R2.18-EVO"); reflexivity.
Defined.

Lemma main_version_missing_witness :
  (forall s, main_try env_no_version config_cli 0%nat s
             = (Raise (Exc AttributeError), emit (EvFacts 0%nat) s)) /\
  exists s',
    main env_no_version args_cli (init_state 0) = (Val (UpgradeProcessFailed, 1), s') /\
    script env_no_version args_cli (init_state 0) = (1, s') /\
    trace s' = EvClose 0%nat :: EvFacts 0%nat :: EvOpen 0%nat true
                 :: trace (init_state 0).
Proof.
  apply (main_version_missing env_no_version args_cli 0 config_cli (init_state 0));
    reflexivity.
Defined.



(** The whole upgrade on the lab device: the listing fails, the image is
    copied and installed, the device reboots, two probes fail, the third
    connects, and the version matches. *)
Example upgrade_run :
  script env_listing_fails args_cli (init_state 0) =
    (0,
     {| clock := 748;
        devices := [false; false; false; false];
        trace :=
          [EvClose 3%nat; EvFacts 3%nat; EvOpen 3%nat true;
           EvSleep 10; EvOpen 2%nat false; EvSleep 10; EvOpen 1%nat false;
           EvSleep 720; EvClose 0%nat; EvReboot 0%nat;
           EvInstall 0%nat "junos-24.2R2.18.tgz" "/var/tmp/usb" (InstallReturns true "ok");
           EvCopy 0%nat "/srv/images/junos-24.2R2.18.tgz" "/var/tmp/usb";
           EvExists "/srv/images/junos-24.2R2.18.tgz" true;
           EvLs 0%nat "/var/tmp/usb"; EvFacts 0%nat; EvOpen 0%nat true];
        dev := Some 3%nat |}).
Proof. vm_compute. reflexivity. Qed.

Example upgrade_run_outcome :
  fst (main env_listing_fails args_cli (init_state 0)) = Val (Success, 0).
Proof. vm_compute. reflexivity. Qed.

(** * Further properties *)

(** ** The install phase as one equation *)

Lemma main_install_run env cfg s :
  main_install env cfg 0%nat s =
    let s1 := emit (EvInstall 0%nat (basename (image_name cfg)) (remote_path cfg)
                      (install_of env 0%nat)) s in
    if install_accepted (install_of env 0%nat) then
      if install_result (install_of env 0%nat) (reboot_of env 0%nat) then
        match probe_device env (host cfg) (user cfg) (password cfg) (timeout cfg)
                (rebooting env cfg s) with
        | (Val (Some d), s4) =>
            (Val (if verified env cfg d then (Success, 0) else (VersionMismatch, 1)),
             emit (EvFacts d) (with_dev (Some d) s4))
        | (Val None, s4) => (Val (RebootTimedOut, 1), with_dev None s4)
        | (Raise r, s4) => (Raise r, s4)
        end
      else (Val (InstallFailed, 1), emit (EvReboot 0%nat) s1)
    else (Val (InstallFailed, 1), s1).
Proof.
  unfold main_install. unfold bind at 1. rewrite install_image_run. cbv zeta.
  destruct (install_accepted _); [|reflexivity].
  destruct (install_result _ _); [|reflexivity].
  cbv iota beta. unfold bind at 1. cbn [dev_close]. unfold bind at 1. cbn [time_sleep].
  unfold bind at 1. fold (rebooting env cfg s).
  destruct (probe_device _ _ _ _ _ _) as [[[d|]|r] s4]; try reflexivity.
  unfold bind at 1. cbn [set_dev]. unfold bind at 1. rewrite verify_version_run.
  fold (verified env cfg d). unfold with_dev.
  destruct (verified env cfg d); reflexivity.
Qed.

(** ** connect_device and probe_device *)

(** X1.  [connect_device] makes exactly one attempt and never raises: it
    builds one [Device], calls [open] once, and returns that [Device],
    connected, when [open] succeeds, and [None], with the [Device] left
    unconnected, whatever exception [open] raises. *)
Theorem connect_device_single_attempt env host user password s :
  exists r s',
    connect_device env host user password s = (Val r, s') /\
    (r = Some (List.length (devices s)) \/ r = None) /\
    (r <> None <-> connect_reply env (List.length (devices s)) = ConnOk) /\
    devices s' = (devices s ++ [negb (is_None r)])%list /\
    trace s' = EvOpen (List.length (devices s)) (negb (is_None r)) :: trace s /\
    dev s' = dev s.
Proof.
  rewrite connect_device_run.
  destruct (connect_reply env (List.length (devices s))) as [|e].
  - do 2 eexists. split; [reflexivity|]. split; [auto|].
    split; [split; [reflexivity | discriminate]|].
    cbn. rewrite set_nth_last. auto.
  - do 2 eexists. split; [reflexivity|]. split; [auto|].
    split; [split; [congruence | discriminate]|].
    cbn. auto.
Qed.

(** X2.  The number of attempts of [probe_device] is bounded by the
    timeout: a pass is entered only before the deadline and each failed
    pass sleeps 10, so the [n] failed passes satisfy [10 * (n - 1) < timeout],
    and [10 * n < timeout] when one more attempt succeeds. *)
Theorem probe_device_attempts_bounded env host user password timeout s :
  exists r n s',
    probe_device env host user password timeout s = (Val r, s') /\
    trace s' = ((match r with Some d => [EvOpen d true] | None => [] end)
                  ++ failed_trace (List.length (devices s)) n ++ trace s)%list /\
    ((0 < n)%nat -> 10 * (Z.of_nat n - 1) < timeout) /\
    (r <> None -> 10 * Z.of_nat n < timeout).
Proof.
  unfold probe_device, bind, time_time.
  destruct (probe_loop_end env host user password (clock s + timeout) s)
    as [n Hall Hend | n Hall Hbefore Hok].
  - exists None, n, (Nat.iter n (failed_pass env) s).
    split; [reflexivity|]. split; [apply failed_passes_trace|].
    split; [|congruence].
    intro Hn. destruct n as [|n]; [lia|].
    destruct (Hall n (Nat.lt_succ_diag_r n)) as [Hlt _].
    pose proof (failed_passes_clock_ge env n s). lia.
  - exists (Some (List.length (devices (Nat.iter n (failed_pass env) s)))), n,
           (good_pass env (Nat.iter n (failed_pass env) s)).
    split; [reflexivity|].
    pose proof (failed_passes_clock_ge env n s) as Hge.
    split; [cbn; now rewrite failed_passes_trace|].
    split; intros _; lia.
Qed.


(** ** load_config *)

(** X4.  The order of precedence: each option of a loaded configuration
    is the command-line value when that is non-empty, and otherwise the
    environment variable, with the built-in default for the remote path and
    the expected version when the variable is unset; an empty command-line
    value counts as not given.  The timeout is the command-line number and
    the two full paths are the joins of directory and image name. *)
Theorem load_config_precedence env args s cfg s1 :
  load_config env args s = (Val cfg, s1) ->
  resolved (arg_host args) (environ env "JUNOS_HOST") (host cfg) /\
  resolved (arg_user args) (environ env "JUNOS_USER") (user cfg) /\
  resolved (arg_image args) (environ env "JUNOS_IMAGE") (image_name cfg) /\
  resolved (arg_local_path args) (environ env "JUNOS_IMAGE_PATH") (local_image_dir cfg) /\
  resolved (arg_remote_path args)
    (Some (or_default (environ env "REMOTE_PATH") "/var/tmp/usb")) (remote_path cfg) /\
  resolved (arg_expected_version args)
    (Some (or_default (environ env "EXPECTED_VERSION") "24.2R2.18"))
    (expected_version cfg) /\
  timeout cfg = arg_timeout args /\
  local_image_fullpath cfg = path_join (local_image_dir cfg) (image_name cfg) /\
  remote_image_fullpath cfg = path_join (remote_path cfg) (image_name cfg).
Proof.
  intro Hload.
  pose proof (load_config_required_present _ _ _ _ _ Hload)
    as (H1 & H2 & H3 & H4 & H5 & H6 & _).
  assert (Hres : forall a e v, py_or a e = Some v -> resolved a e v).
  { intros a e v. unfold py_or, resolved. destruct (truthy a); auto. }
  assert (Hdef : forall name d,
            getenv_default env name d = Some (or_default (environ env name) d)).
  { intros name d. unfold getenv_default, or_default.
    destruct (environ env name); reflexivity. }
  cbn [raw_config raw_host raw_user raw_image_name raw_local_image_dir
       raw_remote_path raw_expected_version] in H1, H2, H3, H4, H5, H6.
  rewrite Hdef in H5, H6. unfold getenv in *.
  split; [apply Hres, H1|]. split; [apply Hres, H2|]. split; [apply Hres, H3|].
  split; [apply Hres, H4|]. split; [apply Hres, H5|]. split; [apply Hres, H6|].
  clear - Hload. unfold load_config in Hload.
  destruct (missing _); [|discriminate].
  unfold bind, ret in Hload.
  destruct (if negb _ then _ else _) as [[pw|r] s2]; [|discriminate].
  injection Hload as <- _. cbn. auto.
Qed.

(** ** Why a run ends as it does *)

Lemma main_try_run env cfg s :
  main_try env cfg 0%nat s =
    let sF := emit (EvFacts 0%nat) s in
    let sL := emit (EvLs 0%nat (remote_path cfg)) sF in
    let full := path_join (local_image_dir cfg) (image_name cfg) in
    match version_matches (facts_of env 0%nat) PyNone (expected_version cfg) with
    | Val true => (Val (AlreadyUpToDate, 0), sF)
    | Raise r => (Raise r, sF)
    | Val false =>
        match listing_result (ls_of env 0%nat (remote_path cfg)) (image_name cfg) with
        | Raise r => (Raise r, sL)
        | Val true => main_install env cfg 0%nat sL
        | Val false =>
            if path_exists env full then
              if copy_result (copy_of env 0%nat) then
                main_install env cfg 0%nat
                  (emit (EvCopy 0%nat full (remote_path cfg)) (emit (EvExists full true) sL))
              else
                (Val (ImageCopyFailed, 1),
                 emit (EvCopy 0%nat full (remote_path cfg)) (emit (EvExists full true) sL))
            else (Val (ImageCopyFailed, 1), emit (EvExists full false) sL)
        end
    end.
Proof.
  rewrite main_try_version_check. cbv zeta.
  destruct (version_matches _ _ _) as [[|]|r]; try reflexivity.
  unfold bind at 1. rewrite check_image_on_device_run.
  destruct (listing_result _ _) as [[|]|r]; try reflexivity.
  cbn [negb]. unfold bind at 1. rewrite copy_image_to_device_run. cbv zeta.
  destruct (path_exists env _); [|reflexivity].
  destruct (copy_result _); reflexivity.
Qed.

(** The install phase and the [finally] clause, from a state in which
    session 0 is open and is [dev]. *)
Lemma install_phase_justified env cfg s o c s' :
  devices s = [true] ->
  dev s = Some 0%nat ->
  try_finally
    (try_except (main_install env cfg 0%nat)
       (except_Exception (fun _ => ret (UpgradeProcessFailed, 1))))
    main_finally s = (Val (o, c), s') ->
  c = (if successful o then 0 else 1) /\
  match o with
  | InstallFailed =>
      install_result (install_of env 0%nat) (reboot_of env 0%nat) = false
  | RebootTimedOut =>
      install_result (install_of env 0%nat) (reboot_of env 0%nat) = true /\
      clock s + 720 + timeout cfg <= clock s'
  | Success =>
      install_result (install_of env 0%nat) (reboot_of env 0%nat) = true /\
      exists d, d <> 0%nat /\ dev s' = Some d /\ opened d (trace s') /\
                verified env cfg d = true
  | VersionMismatch =>
      install_result (install_of env 0%nat) (reboot_of env 0%nat) = true /\
      exists d, d <> 0%nat /\ dev s' = Some d /\ opened d (trace s') /\
                verified env cfg d = false
  | _ => False
  end.
Proof.
  intros Hds Hdv. destruct s as [t ds tr dv]. cbn in Hds, Hdv. subst.
  unfold try_finally, try_except. rewrite main_install_run. cbv zeta.
  destruct (install_accepted (install_of env 0%nat)) eqn:Hacc.
  - destruct (install_result _ _) eqn:Hres.
    + unfold probe_device, bind, time_time.
      match goal with |- context [probe_loop env ?h ?u ?p ?dl ?s0] =>
        destruct (probe_loop_end env h u p dl s0) as [n Hall Hend | n Hall Hbefore Hok]
      end.
      * unfold main_finally, bind, get_dev. cbn [with_dev dev].
        intros [= <- <- <-]. split; [reflexivity|]. split; [reflexivity|].
        unfold rebooting in Hend. cbn [clock tick emit set_connected] in Hend.
        unfold rebooting. cbn [clock with_dev]. lia.
      * unfold main_finally, bind, get_dev, dev_connected, dev_close.
        unfold good_pass, attempted, alloc.
        cbn [with_dev dev emit set_connected tick devices trace clock].
        rewrite !set_nth_last, nth_middle. cbv iota beta.
        rewrite failed_passes_length.
        unfold rebooting.
        cbn [devices tick emit set_connected set_nth List.length Nat.add].
        destruct (verified env cfg (S n)) eqn:Hver; intros [= <- <- <-];
          (split; [reflexivity|]); (split; [reflexivity|]);
          exists (S n); cbn [dev trace]; unfold opened;
          (split; [discriminate|]); (split; [reflexivity|]);
          (split; [right; right; left; reflexivity | exact Hver]).
    + unfold main_finally, bind, get_dev, dev_connected, dev_close. cbn.
      intros [= <- <- <-]. auto.
  - unfold main_finally, bind, get_dev, dev_connected, dev_close. cbn.
    intros [= <- <- <-]. split; [reflexivity|].
    unfold install_result. unfold install_accepted in Hacc.
    destruct (install_of env 0%nat) as [e|[|] msg]; try discriminate; reflexivity.
Qed.

Lemma install_outcome_justified env cfg t0 s o c s' :
  staged env cfg ->
  t0 <= clock s ->
  c = (if successful o then 0 else 1) /\
  match o with
  | InstallFailed =>
      install_result (install_of env 0%nat) (reboot_of env 0%nat) = false
  | RebootTimedOut =>
      install_result (install_of env 0%nat) (reboot_of env 0%nat) = true /\
      clock s + 720 + timeout cfg <= clock s'
  | Success =>
      install_result (install_of env 0%nat) (reboot_of env 0%nat) = true /\
      exists d, d <> 0%nat /\ dev s' = Some d /\ opened d (trace s') /\
                verified env cfg d = true
  | VersionMismatch =>
      install_result (install_of env 0%nat) (reboot_of env 0%nat) = true /\
      exists d, d <> 0%nat /\ dev s' = Some d /\ opened d (trace s') /\
                verified env cfg d = false
  | _ => False
  end ->
  justified env cfg t0 o s' /\ c = (if successful o then 0 else 1).
Proof.
  intros Hst Ht [Hc Ho]. split; [|exact Hc].
  destruct o; cbn in Ho |- *; try contradiction; try tauto.
  destruct Ho as [Hres Hclock]. split; [exact Hst|]. split; [exact Hres|]. lia.
Qed.

(** Every outcome [main] returns has its cause, and the exit code follows
    the outcome. *)
Lemma main_outcome_justified env args t0 cfg s1 o c s' :
  load_config env args (init_state t0) = (Val cfg, s1) ->
  main env args (init_state t0) = (Val (o, c), s') ->
  justified env cfg t0 o s' /\ c = (if successful o then 0 else 1).
Proof.
  intros Hload Hmain.
  destruct (connect_reply env 0%nat) as [|e] eqn:Hconn.
  - rewrite (main_session _ _ _ _ _ Hload Hconn) in Hmain.
    unfold try_finally, try_except in Hmain. rewrite main_try_run in Hmain.
    cbv zeta in Hmain.
    assert (Hclock : forall evs, t0 <= clock (fold_right emit (session_start env t0 (trace s1)) evs)).
    { intro evs. induction evs as [|ev evs IH]; cbn; [lia | exact IH]. }
    destruct (version_matches (facts_of env 0%nat) PyNone (expected_version cfg))
      as [[|]|[e|code]] eqn:Hver.
    + cbn in Hmain. injection Hmain as <- <- <-. cbn. auto.
    + destruct (listing_result (ls_of env 0%nat (remote_path cfg)) (image_name cfg))
        as [[|]|[e|code]] eqn:Hls.
      * match type of Hmain with context [main_install env cfg 0%nat ?s0] =>
          apply (install_phase_justified env cfg s0 o c s' eq_refl eq_refl) in Hmain;
          apply (install_outcome_justified env cfg t0 s0 o c s') in Hmain
        end; auto.
        -- split; auto.
        -- apply (Hclock [_; _]).
      * destruct (path_exists env _) eqn:Hex.
        -- destruct (copy_result (copy_of env 0%nat)) eqn:Hcp.
           ++ match type of Hmain with context [main_install env cfg 0%nat ?s0] =>
                apply (install_phase_justified env cfg s0 o c s' eq_refl eq_refl) in Hmain;
                apply (install_outcome_justified env cfg t0 s0 o c s') in Hmain
              end; auto.
              ** split; auto.
              ** apply (Hclock [_; _; _; _]).
           ++ cbn in Hmain. injection Hmain as <- <- <-. cbn. auto.
        -- cbn in Hmain. injection Hmain as <- <- <-. cbn. auto.
      * cbn in Hmain. injection Hmain as <- <- <-. cbn. split; [|reflexivity].
        right. split; [exact Hver|]. exists e.
        unfold listing_result in Hls.
        destruct (ls_of env 0%nat (remote_path cfg)) as [e'|[files|]];
          try discriminate.
        destruct e'; try discriminate; injection Hls as <-; split; congruence.
      * exfalso. unfold listing_result in Hls.
        destruct (ls_of env _ _) as [[]|[|]]; discriminate.
    + cbn in Hmain. injection Hmain as <- <- <-. cbn. split; [|reflexivity]. eauto.
    + exfalso. unfold version_matches in Hver.
      destruct (facts_of env _) as [|[[|]|]]; discriminate.
  - pose proof (load_config_run env args (init_state t0)) as H.
    rewrite Hload in H. destruct H as (_ & Hds & _).
    unfold main in Hmain. unfold bind at 1 in Hmain. rewrite Hload in Hmain.
    unfold bind at 1 in Hmain. rewrite connect_device_run, Hds in Hmain.
    cbn [devices init_state List.length] in Hmain. rewrite Hconn in Hmain.
    cbn in Hmain. injection Hmain as <- <- <-. cbn. split; [congruence | reflexivity].
Qed.

(** ** The helper functions *)


(** X9.  [copy_image_to_device] never raises.  It returns [True] exactly
    when the local file exists and [safe_copy] returns a true value; when
    the local file does not exist, [safe_copy] is not called at all. *)
Theorem copy_image_never_raises env d local_path remote image s :
  let full := path_join local_path image in
  exists b s',
    copy_image_to_device env d local_path remote image s = (Val b, s') /\
    (b = true <-> path_exists env full = true /\ copy_of env d = CopyReturns true) /\
    trace s' = (if path_exists env full
                then EvCopy d full remote :: EvExists full true :: trace s
                else EvExists full false :: trace s) /\
    devices s' = devices s.
Proof.
  intro full. rewrite copy_image_to_device_run. cbv zeta. fold full.
  destruct (path_exists env full).
  - do 2 eexists. split; [reflexivity|]. split; [|split; reflexivity].
    destruct (copy_of env d) as [e|[|]]; cbn; split; try tauto;
      try discriminate; intros [_ H]; discriminate.
  - do 2 eexists. split; [reflexivity|]. split; [|split; reflexivity].
    split; [discriminate | intros [H _]; discriminate].
Qed.

Lemma prefix_empty_string p : prefix p "" = true <-> p = "".
Proof. destruct p; cbn; split; intro H; try reflexivity; discriminate. Qed.

(** X10.  [verify_version] never raises and makes the one facts query.  It
    returns [True] exactly when the version is a string that starts with
    the expected prefix, or when the facts have no 'version' entry and the
    expected prefix is empty (the default of the lookup is the empty
    string); a facts error or a version that is [None] gives [False]. *)
Theorem verify_version_result env d p s :
  exists b,
    verify_version env d p s = (Val b, emit (EvFacts d) s) /\
    (b = true <->
     (exists v, facts_of env d = FactsDict (Some (PyStr v)) /\ prefix p v = true) \/
     (facts_of env d = FactsDict None /\ p = "")).
Proof.
  rewrite verify_version_run. eexists. split; [reflexivity|].
  unfold version_matches.
  destruct (facts_of env d) as [e|[[|v]|]].
  - split; [discriminate|]. intros [(v & H & _) | (H & _)]; discriminate.
  - split; [discriminate|]. intros [(v & H & _) | (H & _)]; discriminate.
  - split.
    + intro H. left. eauto.
    + intros [(v' & [= <-] & H) | (H & _)]; [exact H | discriminate].
  - rewrite prefix_empty_string. split.
    + intro H. right. auto.
    + intros [(v & H & _) | (_ & H)]; [discriminate | exact H].
Qed.

(** X11.  [install_image] never raises.  The package it installs is the
    base name of the image; it asks for the reboot exactly when the install
    reported success, and it returns [True] exactly when, in addition, the
    reboot call returned: an exception of the reboot call makes it report
    [False] although the image is installed. *)
Theorem install_image_result env d remote image s :
  exists b s' later,
    install_image env d remote image s = (Val b, s') /\
    trace s' = (later ++ EvInstall d (basename image) remote (install_of env d)
                  :: trace s)%list /\
    later = (if install_accepted (install_of env d) then [EvReboot d] else []) /\
    (b = true <->
     install_accepted (install_of env d) = true /\ reboot_of env d = RebootReturns).
Proof.
  rewrite install_image_run. cbv zeta.
  destruct (install_accepted (install_of env d)) eqn:Hacc.
  - eexists. eexists. exists [EvReboot d].
    split; [reflexivity|]. split; [reflexivity|]. split; [reflexivity|].
    unfold install_result. unfold install_accepted in Hacc.
    destruct (install_of env d) as [e|[|] msg]; try discriminate.
    destruct (reboot_of env d); split; try tauto; try discriminate.
    intros [_ H]; discriminate.
  - exists false. eexists. exists [].
    split; [reflexivity|]. split; [reflexivity|].
    split; [reflexivity|]. split; [discriminate | intros [H _]; discriminate].
Qed.

(** ** Every run *)


Lemma filter_none (P : event -> bool) l :
  (forall ev, In ev l -> P ev = false) -> filter P l = [].
Proof.
  induction l as [|a l IH]; intro H; [reflexivity|].
  cbn. rewrite (H a (or_introl eq_refl)). apply IH. intros ev Hin. apply H. now right.
Qed.

Lemma filter_calm (P : event -> bool) stage :
  (forall ev, calm ev = true -> P ev = false) ->
  forallb calm stage = true -> filter P stage = [].
Proof.
  intros HP H. apply filter_none. intros ev Hin. apply HP. exact (calm_in _ _ H Hin).
Qed.

Lemma filter_failed_trace (P : event -> bool) base n :
  P (EvSleep 10) = false -> (forall h, P (EvOpen h false) = false) ->
  filter P (failed_trace base n) = [].
Proof.
  intros Hs Ho. apply filter_none. intros ev Hin.
  apply failed_trace_in in Hin. destruct Hin as [-> | [h ->]]; auto.
Qed.

Lemma filter_pre (P : event -> bool) pre :
  P EvGetpass = false -> pre = [] \/ pre = [EvGetpass] -> filter P pre = [].
Proof. intros HP [-> | ->]; cbn; [reflexivity | now rewrite HP]. Qed.

Lemma calm_not_install ev : calm ev = true -> is_install ev = false.
Proof. destruct ev; cbn; congruence. Qed.

Lemma calm_not_reboot ev : calm ev = true -> is_reboot ev = false.
Proof. destruct ev; cbn; congruence. Qed.

Ltac count_filter Hpre HP :=
  repeat first [rewrite filter_app | progress cbn [filter is_install is_reboot]];
  repeat match goal with
  | H : forallb calm ?l = true |- _ => rewrite (filter_calm _ l HP H)
  end;
  rewrite ?filter_failed_trace by reflexivity;
  try rewrite (filter_pre _ _ eq_refl Hpre);
  cbn [app List.length].

(** X13.  Nothing is retried around the install: in every run [sw.install]
    is called at most once and [sw.reboot] at most once, and the reboot is
    never requested without an install call before it. *)
Theorem install_requested_at_most_once env args t0 :
  let tr := trace (snd (main env args (init_state t0))) in
  (List.length (filter is_install tr) <= 1)%nat /\
  (List.length (filter is_reboot tr) <= List.length (filter is_install tr))%nat.
Proof.
  pose proof (main_shape env args t0) as Hshape.
  destruct (main env args (init_state t0)) as [[o|r] s']; cbn [snd].
  - destruct Hshape as (pre & Hpre & Hshape).
    destruct Hshape; split;
      first [ count_filter Hpre calm_not_install; lia
            | count_filter Hpre calm_not_reboot; count_filter Hpre calm_not_install; lia ].
  - destruct Hshape as [_ ->]. cbn. lia.
Qed.

(** ** Runs along further paths *)



(** X14.  When the first connection attempt raises, whatever the
    exception, [main] returns ConnectionFailed with exit code 1 after that
    single attempt: no facts query, no other call, and no [close], there
    being no open session. *)
Theorem main_connection_failed env args t0 cfg s1 e :
  load_config env args (init_state t0) = (Val cfg, s1) ->
  connect_reply env 0%nat = ConnRaises e ->
  exists s',
    main env args (init_state t0) = (Val (ConnectionFailed, 1), s') /\
    script env args (init_state t0) = (1, s') /\
    trace s' = EvOpen 0%nat false :: trace s1 /\
    devices s' = [false] /\
    dev s' = None.
Proof.
  intros Hload Hconn.
  pose proof (load_config_run env args (init_state t0)) as H.
  rewrite Hload in H. destruct H as (_ & Hds & _).
  assert (Hmain : exists s',
    main env args (init_state t0) = (Val (ConnectionFailed, 1), s') /\
    trace s' = EvOpen 0%nat false :: trace s1 /\ devices s' = [false] /\ dev s' = None).
  { unfold main. unfold bind at 1. rewrite Hload.
    unfold bind at 1. rewrite connect_device_run, Hds.
    cbn [devices init_state List.length]. rewrite Hconn.
    cbn. rewrite Hds. eexists. repeat split; reflexivity. }
  destruct Hmain as (s' & Hmain & Htr & Hdevs & Hdev).
  exists s'. split; [exact Hmain|]. split; [exact (script_of_main _ _ _ _ _ _ Hmain)|].
  auto.
Qed.

(** X16.  An exception of the listing query other than [RpcError] is not
    taken for "image absent": it leaves [check_image_on_device], reaches the
    handler of [main], and the run ends with UpgradeProcessFailed and exit
    code 1, without any copy or install call and with the session closed. *)
Theorem main_listing_error_is_fatal env args t0 cfg s1 v e :
  load_config env args (init_state t0) = (Val cfg, s1) ->
  connect_reply env 0%nat = ConnOk ->
  facts_of env 0%nat = FactsDict (Some (PyStr v)) ->
  prefix (expected_version cfg) v = false ->
  ls_of env 0%nat (remote_path cfg) = LsRaises e ->
  e <> RpcError ->
  (forall s,
     check_image_on_device env 0%nat (remote_path cfg) (image_name cfg) s
     = (Raise (Exc e), emit (EvLs 0%nat (remote_path cfg)) s)) /\
  exists s',
    main env args (init_state t0) = (Val (UpgradeProcessFailed, 1), s') /\
    script env args (init_state t0) = (1, s') /\
    trace s' = EvClose 0%nat :: EvLs 0%nat (remote_path cfg) :: EvFacts 0%nat
                 :: EvOpen 0%nat true :: trace s1 /\
    devices s' = [false].
Proof.
  intros Hload Hconn Hfacts Hpre Hls He.
  assert (Hres : listing_result (ls_of env 0%nat (remote_path cfg)) (image_name cfg)
                 = Raise (Exc e)).
  { rewrite Hls. destruct e; cbn; congruence. }
  split.
  { intro s. rewrite check_image_on_device_run, Hres. reflexivity. }
  assert (Hmain : exists s',
    main env args (init_state t0) = (Val (UpgradeProcessFailed, 1), s') /\
    trace s' = EvClose 0%nat :: EvLs 0%nat (remote_path cfg) :: EvFacts 0%nat
                 :: EvOpen 0%nat true :: trace s1 /\
    devices s' = [false]).
  { rewrite (main_session _ _ _ _ _ Hload Hconn). unfold try_finally, try_except.
    rewrite main_try_run. cbv zeta. unfold version_matches at 1.
    rewrite Hfacts, Hpre, Hres. cbn. eexists. repeat split; reflexivity. }
  destruct Hmain as (s' & Hmain & Htr & Hdevs).
  exists s'. split; [exact Hmain|]. split; [exact (script_of_main _ _ _ _ _ _ Hmain)|].
  auto.
Qed.

Lemma install_result_true i r :
  install_result i r = true <->
  (exists msg, i = InstallReturns true msg) /\ r = RebootReturns.
Proof.
  unfold install_result. destruct i as [e|[|] msg], r as [e'|]; split;
    try discriminate; try (intros [(m & H) H']; discriminate).
  - eauto.
  - reflexivity.
Qed.

Lemma verified_cases env cfg d :
  verified env cfg d = true <->
  (exists v, facts_of env d = FactsDict (Some (PyStr v)) /\
             prefix (expected_version cfg) v = true) \/
  (facts_of env d = FactsDict None /\ expected_version cfg = "").
Proof.
  unfold verified, version_matches.
  destruct (facts_of env d) as [e|[[|v]|]].
  - split; [discriminate|]. intros [(v & H & _) | (H & _)]; discriminate.
  - split; [discriminate|]. intros [(v & H & _) | (H & _)]; discriminate.
  - split.
    + intro H. left. eauto.
    + intros [(v' & [= <-] & H) | (H & _)]; [exact H | discriminate].
  - rewrite prefix_empty_string. split.
    + intro H. right. auto.
    + intros [(v & H & _) | (_ & H)]; [discriminate | exact H].
Qed.

(** X17.  Success is never reported unverified: when [main] returns
    Success, the exit code is 0, the install had reported success and the
    reboot call had returned, a session other than the first was opened
    afterwards and is the final [dev], and the facts read on it gave a
    version that starts with the expected prefix (or no version entry at
    all, with an empty expected prefix). *)
Theorem main_success_is_verified env args t0 cfg s1 c s' :
  load_config env args (init_state t0) = (Val cfg, s1) ->
  main env args (init_state t0) = (Val (Success, c), s') ->
  c = 0 /\
  (exists msg, install_of env 0%nat = InstallReturns true msg) /\
  reboot_of env 0%nat = RebootReturns /\
  exists d,
    d <> 0%nat /\ dev s' = Some d /\ opened d (trace s') /\
    ((exists v, facts_of env d = FactsDict (Some (PyStr v)) /\
                prefix (expected_version cfg) v = true) \/
     (facts_of env d = FactsDict None /\ expected_version cfg = "")).
Proof.
  intros Hload Hmain.
  destruct (main_outcome_justified _ _ _ _ _ _ _ _ Hload Hmain) as [Hj Hc].
  cbn in Hj, Hc. destruct Hj as (_ & Hres & d & Hd & Hdev & Hop & Hver).
  apply install_result_true in Hres. destruct Hres as [Hi Hr].
  apply verified_cases in Hver.
  split; [exact Hc|]. split; [exact Hi|]. split; [exact Hr|].
  exists d. auto.
Qed.

(** X18.  RebootTimedOut means the whole budget was spent: when [main]
    returns it, the exit code is 1 and the clock stands at least 720 plus
    the configured timeout after the start of the run. *)
Theorem main_timeout_waited env args t0 cfg s1 c s' :
  load_config env args (init_state t0) = (Val cfg, s1) ->
  main env args (init_state t0) = (Val (RebootTimedOut, c), s') ->
  c = 1 /\ t0 + 720 + timeout cfg <= clock s'.
Proof.
  intros Hload Hmain.
  destruct (main_outcome_justified _ _ _ _ _ _ _ _ Hload Hmain) as [Hj Hc].
  cbn in Hj, Hc. destruct Hj as (_ & _ & Hclock). auto.
Qed.







(** ** The password prompt and a blank expected version *)

Lemma calm_not_prompt ev : calm ev = true -> is_prompt ev = false.
Proof. destruct ev; cbn; congruence. Qed.

Lemma shape_later_no_prompt pre o tr devs dv :
  run_shape pre o tr devs dv ->
  exists later, tr = (later ++ pre)%list /\ filter is_prompt later = [].
Proof.
  intros [].
  - exists [EvOpen 0%nat false]. split; reflexivity.
  - exists (EvClose 0%nat :: stage ++ [EvOpen 0%nat true])%list. split.
    + cbn. rewrite <- app_assoc. reflexivity.
    + cbn. rewrite filter_app, (filter_calm _ _ calm_not_prompt H). reflexivity.
  - exists (EvClose 0%nat :: EvInstall 0%nat p rp r :: stage ++ [EvOpen 0%nat true])%list.
    split.
    + cbn. rewrite <- app_assoc. reflexivity.
    + cbn. rewrite filter_app, (filter_calm _ _ calm_not_prompt H). reflexivity.
  - exists (EvClose 0%nat :: EvReboot 0%nat :: EvInstall 0%nat p rp r
              :: stage ++ [EvOpen 0%nat true])%list. split.
    + cbn. rewrite <- app_assoc. reflexivity.
    + cbn. rewrite filter_app, (filter_calm _ _ calm_not_prompt H). reflexivity.
  - exists (failed_trace 1 n ++ EvSleep 720 :: EvClose 0%nat :: EvReboot 0%nat
              :: EvInstall 0%nat p rp r :: stage ++ [EvOpen 0%nat true])%list. split.
    + rewrite <- app_assoc. cbn. rewrite <- app_assoc. reflexivity.
    + rewrite filter_app, filter_failed_trace by reflexivity. cbn.
      rewrite filter_app, (filter_calm _ _ calm_not_prompt H). reflexivity.
  - exists (EvClose (S n) :: EvFacts (S n) :: EvOpen (S n) true
              :: failed_trace 1 n ++ EvSleep 720 :: EvClose 0%nat :: EvReboot 0%nat
              :: EvInstall 0%nat p rp r :: stage ++ [EvOpen 0%nat true])%list. split.
    + cbn. rewrite <- app_assoc. cbn. rewrite <- app_assoc. reflexivity.
    + cbn. rewrite filter_app, filter_failed_trace by reflexivity. cbn.
      rewrite filter_app, (filter_calm _ _ calm_not_prompt H). reflexivity.
Qed.

(** X6.  The password is asked for exactly when none is given, on the
    command line or in JUNOS_PASSWORD, an empty one counting as none.
    Then the prompt happens once, before everything else the run does, and
    what is typed becomes the password; otherwise there is no prompt in the
    whole run. *)
Theorem password_prompted_once_first env args t0 cfg s1 o s' :
  load_config env args (init_state t0) = (Val cfg, s1) ->
  main env args (init_state t0) = (Val o, s') ->
  if truthy (py_or (arg_password args) (environ env "JUNOS_PASSWORD"))
  then filter is_prompt (trace s') = [] /\
       Some (password cfg) = py_or (arg_password args) (environ env "JUNOS_PASSWORD")
  else password cfg = getpass_reply env /\
       exists later, trace s' = (later ++ [EvGetpass])%list /\
                     filter is_prompt later = [].
Proof.
  intros Hload Hmain.
  pose proof (load_config_required_present _ _ _ _ _ Hload)
    as (_ & _ & _ & _ & _ & _ & Hpw).
  pose proof (load_config_run env args (init_state t0)) as Hrun.
  rewrite Hload in Hrun. destruct Hrun as (_ & Hds & _).
  unfold main in Hmain. unfold bind at 1 in Hmain. rewrite Hload in Hmain.
  destruct (session_shape env cfg s1 Hds) as (o' & s'' & Hses & Hshape).
  rewrite Hses in Hmain. injection Hmain as <- <-.
  destruct (shape_later_no_prompt _ _ _ _ _ Hshape) as (later & Htr & Hlater).
  cbn [raw_config raw_password] in Hpw. unfold getenv in Hpw.
  destruct (truthy (py_or (arg_password args) (environ env "JUNOS_PASSWORD"))).
  - destruct Hpw as [Hpw Hs1]. split; [|now rewrite Hpw].
    rewrite Htr, Hs1, filter_app, Hlater. reflexivity.
  - destruct Hpw as [Hpw Hs1]. split; [exact Hpw|].
    exists later. split; [|exact Hlater]. rewrite Htr, Hs1. reflexivity.
Qed.

Lemma prefix_nil v : prefix "" v = true.
Proof. destruct v; reflexivity. Qed.

(** X7.  An expected version that is set but empty switches the upgrade
    off: with no --expected-version and EXPECTED_VERSION set to the empty
    string, every device that reports a version string at all is taken to
    be up to date, and [main] returns AlreadyUpToDate with exit code 0
    without copy, install or reboot. *)
Theorem main_blank_expected_version env args t0 cfg s1 v :
  load_config env args (init_state t0) = (Val cfg, s1) ->
  truthy (arg_expected_version args) = false ->
  environ env "EXPECTED_VERSION" = Some "" ->
  connect_reply env 0%nat = ConnOk ->
  facts_of env 0%nat = FactsDict (Some (PyStr v)) ->
  expected_version cfg = "" /\
  exists s',
    main env args (init_state t0) = (Val (AlreadyUpToDate, 0), s') /\
    script env args (init_state t0) = (0, s') /\
    trace s' = EvClose 0%nat :: EvFacts 0%nat :: EvOpen 0%nat true :: trace s1.
Proof.
  intros Hload Harg Henv Hconn Hfacts.
  assert (Hexp : expected_version cfg = "").
  { pose proof (load_config_required_present _ _ _ _ _ Hload)
      as (_ & _ & _ & _ & _ & H & _).
    cbn [raw_config raw_expected_version] in H.
    unfold py_or, getenv_default in H. rewrite Harg, Henv in H. congruence. }
  split; [exact Hexp|].
  assert (Hmain : exists s',
    main env args (init_state t0) = (Val (AlreadyUpToDate, 0), s') /\
    trace s' = EvClose 0%nat :: EvFacts 0%nat :: EvOpen 0%nat true :: trace s1).
  { rewrite (main_session _ _ _ _ _ Hload Hconn). unfold try_finally, try_except.
    rewrite main_try_run. cbv zeta. unfold version_matches.
    rewrite Hfacts, Hexp, prefix_nil. cbn. eexists. split; reflexivity. }
  destruct Hmain as (s' & Hmain & Htr).
  exists s'. split; [exact Hmain|]. split; [exact (script_of_main _ _ _ _ _ _ Hmain)|].
  exact Htr.
Qed.

Lemma py_or_none a e : is_None (py_or a e) = true <-> truthy a = false /\ e = None.
Proof.
  unfold py_or. destruct a as [x|]; cbn.
  - destruct (x =? "")%string; cbn; destruct e; cbn; split;
      try discriminate; try tauto; intros [H H']; discriminate.
  - destruct e; cbn; split; try discriminate; try tauto; intros [H H']; discriminate.
Qed.

Lemma py_or_default a d : is_None (py_or a (Some d)) = false.
Proof.
  destruct (is_None (py_or a (Some d))) eqn:E; [|reflexivity].
  apply py_or_none in E. destruct E as [_ E]. discriminate.
Qed.

(** X5.  [load_config] exits, with status 1 and before any prompt or
    connection, exactly when one of host, user, image name and local image
    directory is neither given non-empty on the command line nor set in the
    environment.  The remote path and the expected version have defaults
    and never cause it, nor does the password. *)
Theorem load_config_exits_iff_option_missing env args s :
  (load_config env args s = (Raise (SystemExit 1), s) /\
   script env args s = (1, s)) <->
  ((truthy (arg_host args) = false /\ environ env "JUNOS_HOST" = None) \/
   (truthy (arg_user args) = false /\ environ env "JUNOS_USER" = None) \/
   (truthy (arg_image args) = false /\ environ env "JUNOS_IMAGE" = None) \/
   (truthy (arg_local_path args) = false /\ environ env "JUNOS_IMAGE_PATH" = None)).
Proof.
  split.
  - intros [Hload _].
    pose proof (load_config_run env args s) as Hrun. rewrite Hload in Hrun.
    destruct Hrun as (Hmiss & _).
    destruct (is_None (raw_host (raw_config env args))) eqn:H1;
      [left; apply py_or_none; exact H1|].
    destruct (is_None (raw_user (raw_config env args))) eqn:H2;
      [right; left; apply py_or_none; exact H2|].
    destruct (is_None (raw_image_name (raw_config env args))) eqn:H3;
      [right; right; left; apply py_or_none; exact H3|].
    destruct (is_None (raw_local_image_dir (raw_config env args))) eqn:H4;
      [right; right; right; apply py_or_none; exact H4|].
    exfalso. apply Hmiss. apply missing_nil.
    repeat split; try assumption; cbn [raw_config raw_remote_path raw_expected_version];
      unfold getenv_default; destruct (environ env _); apply py_or_default.
  - intro H. apply load_config_rejects_missing.
    cbn [raw_config raw_host raw_user raw_image_name raw_local_image_dir].
    unfold getenv. rewrite !py_or_none. exact H.
Qed.


(** ** The further properties at the sample environments *)

Lemma load_config_precedence_witness :
  resolved (arg_host args_cli) (environ env_current "JUNOS_HOST") (host config_cli) /\
  resolved (arg_user args_cli) (environ env_current "JUNOS_USER") (user config_cli) /\
  resolved (arg_image args_cli) (environ env_current "JUNOS_IMAGE")
    (image_name config_cli) /\
  resolved (arg_local_path args_cli) (environ env_current "JUNOS_IMAGE_PATH")
    (local_image_dir config_cli) /\
  resolved (arg_remote_path args_cli)
    (Some (or_default (environ env_current "REMOTE_PATH") "/var/tmp/usb"))
    (remote_path config_cli) /\
  resolved (arg_expected_version args_cli)
    (Some (or_default (environ env_current "EXPECTED_VERSION") "24.2R2.18"))
    (expected_version config_cli) /\
  timeout config_cli = arg_timeout args_cli /\
  local_image_fullpath config_cli
  = path_join (local_image_dir config_cli) (image_name config_cli) /\
  remote_image_fullpath config_cli
  = path_join (remote_path config_cli) (image_name config_cli).
Proof.
  apply (load_config_precedence env_current args_cli (init_state 0) config_cli
           (init_state 0)).
  reflexivity.
Defined.

Lemma password_prompted_once_first_witness :
  if truthy (py_or (arg_password args_no_password) (environ env_current "JUNOS_PASSWORD"))
  then filter is_prompt (trace (snd (main env_current args_no_password (init_state 0)))) = [] /\
       Some (password config_cli)
       = py_or (arg_password args_no_password) (environ env_current "JUNOS_PASSWORD")
  else password config_cli = getpass_reply env_current /\
       exists later,
         trace (snd (main env_current args_no_password (init_state 0)))
         = (later ++ [EvGetpass])%list /\
         filter is_prompt later = [].
Proof.
  apply (password_prompted_once_first env_current args_no_password 0 config_cli
           (emit EvGetpass (init_state 0)) (AlreadyUpToDate, 0)
           (snd (main env_current args_no_password (init_state 0))));
    vm_compute; reflexivity.
Defined.

Lemma main_blank_expected_version_witness :
  expected_version config_blank_expected = "" /\
  exists s',
    main env_blank_expected args_cli (init_state 0) = (Val (AlreadyUpToDate, 0), s') /\
    script env_blank_expected args_cli (init_state 0) = (0, s') /\
    trace s' = EvClose 0%nat :: EvFacts 0%nat :: EvOpen 0%nat true
                 :: trace (init_state 0).
Proof.
  apply (main_blank_expected_version env_blank_expected args_cli 0
           config_blank_expected (init_state 0) "21.1R1.11"); reflexivity.
Defined.


Lemma main_connection_failed_witness :
  exists s',
    main (env_down 3) args_cli (init_state 0) = (Val (ConnectionFailed, 1), s') /\
    script (env_down 3) args_cli (init_state 0) = (1, s') /\
    trace s' = EvOpen 0%nat false :: trace (init_state 0) /\
    devices s' = [false] /\
    dev s' = None.
Proof.
  apply (main_connection_failed (env_down 3) args_cli 0 config_cli (init_state 0)
           ConnectError); reflexivity.
Defined.


Lemma main_listing_error_is_fatal_witness :
  (forall s,
     check_image_on_device env_listing_breaks 0%nat (remote_path config_cli)
       (image_name config_cli) s
     = (Raise (Exc ConnectError), emit (EvLs 0%nat (remote_path config_cli)) s)) /\
  exists s',
    main env_listing_breaks args_cli (init_state 0) = (Val (UpgradeProcessFailed, 1), s') /\
    script env_listing_breaks args_cli (init_state 0) = (1, s') /\
    trace s' = EvClose 0%nat :: EvLs 0%nat (remote_path config_cli) :: EvFacts 0%nat
                 :: EvOpen 0%nat true :: trace (init_state 0) /\
    devices s' = [false].
Proof.
  apply (main_listing_error_is_fatal env_listing_breaks args_cli 0 config_cli
           (init_state 0) "23.4R1.9" ConnectError); try reflexivity.
  discriminate.
Defined.

Lemma main_success_is_verified_witness :
  0 = 0 /\
  (exists msg, install_of env_listing_fails 0%nat = InstallReturns true msg) /\
  reboot_of env_listing_fails 0%nat = RebootReturns /\
  exists d,
    d <> 0%nat /\
    dev (snd (main env_listing_fails args_cli (init_state 0))) = Some d /\
    opened d (trace (snd (main env_listing_fails args_cli (init_state 0)))) /\
    ((exists v, facts_of env_listing_fails d = FactsDict (Some (PyStr v)) /\
                prefix (expected_version config_cli) v = true) \/
     (facts_of env_listing_fails d = FactsDict None /\ expected_version config_cli = "")).
Proof.
  apply (main_success_is_verified env_listing_fails args_cli 0 config_cli (init_state 0));
    vm_compute; reflexivity.
Defined.

Lemma main_timeout_waited_witness :
  1 = 1 /\
  0 + 720 + timeout config_cli
  <= clock (snd (main env_never_returns args_cli (init_state 0))).
Proof.
  apply (main_timeout_waited env_never_returns args_cli 0 config_cli (init_state 0));
    vm_compute; reflexivity.
Defined.




